(** * ThingiverseService: the content bridge of the ThingiBrowser plugin

    A shallow embedding of [thingiverse/ThingiverseService.py].  The
    service is a Qt object holding UI-observable state; its slots and
    callbacks mutate that state, emit Qt signals, call the API client,
    the host application and the file system.  State is threaded
    explicitly, every outward action is appended to a trace, and a raised
    Python exception is an outcome of the computation.  What the
    interpreter and the operating system decide (Unicode case folding,
    the [repr] of strings and objects, whether a file can be created,
    written and closed) is a parameter of the model. *)

From Stdlib Require Import ZArith String Ascii List Lia Bool.
From stdpp Require Import base tactics option list strings gmap pretty.

Local Open Scope string_scope.
Local Open Scope Z_scope.
Local Open Scope list_scope.

(** ** Python strings

    A [str] is represented by its UTF-8 encoding, a [string] of bytes.
    The code searches for and cuts at ['.'] and ['/'] only; these are
    single bytes that occur in no other character's encoding, so
    searching, splitting, stripping and comparing give on the encoding
    what they give on the characters.  Positions and lengths are counted
    in bytes; the code compares them with one another only.  Case folding
    depends on the characters and is left to the interpreter (see
    [Runtime]); on ASCII text it is [lower_ascii]. *)

Module PyStr.

(** [s.isascii()] *)
Fixpoint isascii (s : string) : bool :=
  match s with
  | EmptyString => true
  | String c s' => (N_of_ascii c <? 128)%N && isascii s'
  end.

Definition ascii_lower (c : ascii) : ascii :=
  let n := N_of_ascii c in
  if ((65 <=? n) && (n <=? 90))%N then ascii_of_N (n + 32) else c.

(** What [s.lower()] yields on ASCII text: the letters A to Z become a
    to z, every other character stays. *)
Fixpoint lower_ascii (s : string) : string :=
  match s with
  | EmptyString => EmptyString
  | String c s' => String (ascii_lower c) (lower_ascii s')
  end.

(** [len(s)], in bytes *)
Definition len (s : string) : Z := Z.of_nat (String.length s).

(** [s.rfind(c)] for a one-character needle: the highest index of [c],
    or [-1]. *)
Fixpoint rfind (c : ascii) (s : string) : Z :=
  match s with
  | EmptyString => -1
  | String a s' =>
      let r := rfind c s' in
      if 0 <=? r then r + 1
      else if Ascii.eqb a c then 0 else -1
  end.

Fixpoint drop (n : nat) (s : string) : string :=
  match n, s with
  | O, _ => s
  | S _, EmptyString => EmptyString
  | S n', String _ s' => drop n' s'
  end.

(** [s[i:]] for a non-negative [i] *)
Definition slice_from (i : Z) (s : string) : string := drop (Z.to_nat i) s.

(** [c in chars] *)
Fixpoint mem (c : ascii) (chars : string) : bool :=
  match chars with
  | EmptyString => false
  | String a chars' => Ascii.eqb c a || mem c chars'
  end.

(** [s.lstrip(chars)], [s.rstrip(chars)] and [s.strip(chars)] *)
Fixpoint lstrip (chars s : string) : string :=
  match s with
  | EmptyString => EmptyString
  | String a s' => if mem a chars then lstrip chars s' else s
  end.

Fixpoint rstrip (chars s : string) : string :=
  match s with
  | EmptyString => EmptyString
  | String a s' =>
      match rstrip chars s' with
      | EmptyString => if mem a chars then EmptyString else String a EmptyString
      | r => String a r
      end
  end.

Definition strip (chars s : string) : string := rstrip chars (lstrip chars s).

(** [s.split(sep)] for a one-character separator: never empty. *)
Fixpoint split (sep : ascii) (s : string) : list string :=
  match s with
  | EmptyString => [EmptyString]
  | String a s' =>
      if Ascii.eqb a sep then EmptyString :: split sep s'
      else match split sep s' with
           | [] => [String a EmptyString]
           | piece :: pieces => String a piece :: pieces
           end
  end.

(** [s.startswith(c)] and [s.endswith(c)] for a one-character [c] *)
Definition startswith (c : ascii) (s : string) : bool :=
  match s with
  | String a _ => Ascii.eqb a c
  | EmptyString => false
  end.

Fixpoint endswith (c : ascii) (s : string) : bool :=
  match s with
  | EmptyString => false
  | String a EmptyString => Ascii.eqb a c
  | String _ s' => endswith c s'
  end.

(** [sep.join(parts)] *)
Definition join (sep : string) (parts : list string) : string :=
  match parts with
  | [] => EmptyString
  | part :: rest => fold_left (fun acc next => acc +:+ sep +:+ next) rest part
  end.

End PyStr.

(** ** pathlib and os.path (POSIX flavour)

    [pathlib.Path(name).suffix] as the Python releases bundled with the
    host application compute it: the path is cut at ['/'], empty and
    ["."] components are dropped, [name] is the final component, and the
    suffix is that name from its last dot on, provided the dot is neither
    its first nor its last character. *)

Module PyPath.

Definition sep : ascii := "/"%char.
Definition dot : ascii := "."%char.

Definition is_component (x : string) : bool :=
  negb (String.eqb x "") && negb (String.eqb x ".").

(** the components kept by [_parse_parts] besides the root *)
Definition components (path : string) : list string :=
  List.filter is_component (PyStr.split sep path).

(** [PurePath.name] *)
Definition name (path : string) : string := List.last (components path) "".

(** the body of [PurePath.suffix], on the final component *)
Definition suffix_of_name (nm : string) : string :=
  let i := PyStr.rfind dot nm in
  if (0 <? i) && (i <? PyStr.len nm - 1) then PyStr.slice_from i nm else "".

(** [PurePath.suffix] *)
Definition suffix (path : string) : string := suffix_of_name (name path).

(** [os.path.join(a, b)] *)
Definition join (a b : string) : string :=
  if PyStr.startswith sep b then b
  else if String.eqb a "" || PyStr.endswith sep a then a +:+ b
  else a +:+ "/" +:+ b.

End PyPath.

(** ** Python values

    The values delivered by the API client are what [json.loads] builds
    when every JSON object becomes a [JSONObject]: [None], booleans,
    integers, strings, lists and objects.  A dictionary appears as the
    [__dict__] of an object. *)

#[local] Set Warnings "-register-all".

(** Modelled from the spec: [JSONObject] is declared next to the API
    client, outside this file.  The spec has it as an opaque record; it is
    a plain attribute holder whose [__dict__] is the decoded JSON object,
    kept here in insertion order, and like every Python object without
    [__bool__] or [__len__] an instance is truthy. *)
Inductive PyValue : Type :=
| PyNone
| PyBool (b : bool)
| PyInt (n : Z)
| PyStr (s : string)
| PyList (items : list PyValue)
| PyDict (entries : list (string * PyValue))
| PyObj (o : JSONObject)
with JSONObject : Type :=
| JSONObject_of (entries : list (string * PyValue)).

Definition __dict__ (o : JSONObject) : list (string * PyValue) :=
  match o with JSONObject_of entries => entries end.

Fixpoint dict_get (entries : list (string * PyValue)) (key : string) : option PyValue :=
  match entries with
  | [] => None
  | (k, v) :: rest => if String.eqb k key then Some v else dict_get rest key
  end.

(** [getattr(o, attr)]: [None] when [hasattr(o, attr)] is false *)
Definition getattr (o : JSONObject) (attr : string) : option PyValue :=
  dict_get (__dict__ o) attr.

(** [bool(x)] for an [Optional[JSONObject]] *)
Definition truthy (x : option JSONObject) : bool :=
  match x with Some _ => true | None => false end.

(** The exceptions that the modelled code can raise. *)
Inductive PyExn : Type :=
| AttributeError (attr : string)
| TypeError
| ValueError
| FileExistsError
| FileNotFoundError
| OSError.

(** What the operating system answers to an exclusive creation of a
    file: done, a file of that name exists, or another error. *)
Inductive OpenResult : Type :=
| Opened
| AlreadyExists
| OpenFailed (e : PyExn).

(** What the interpreter and the operating system supply.
    - [str_lower] is [str.lower], with the interpreter's Unicode tables;
      on ASCII text it is [PyStr.lower_ascii].
    - [repr_str] is the [repr] of a string (its quoting), [repr_object]
      the [repr] of a [JSONObject] (the default one shows its address).
    - [gettempdir] and [random_name] are the temporary directory and
      the candidate names of the [tempfile] module.
    - [os_open], [os_write] and [os_close] say whether the operating
      system creates, writes and closes a file, or with which exception
      the call fails; the number is the count of candidate names drawn so
      far, so the answers may change as the program runs. *)
Class Runtime : Type := {
  str_lower : string -> string;
  str_lower_ascii :
    forall s : string, PyStr.isascii s = true -> str_lower s = PyStr.lower_ascii s;
  repr_str : string -> string;
  repr_object : JSONObject -> string;
  gettempdir : string;
  random_name : nat -> string;
  os_open : nat -> string -> OpenResult;
  os_write : nat -> string -> list Byte.byte -> option PyExn;
  os_close : nat -> string -> option PyExn
}.

(** [repr(v)]: lists and dictionaries show their items in order. *)
Fixpoint py_repr `{Runtime} (v : PyValue) : string :=
  match v with
  | PyNone => "None"
  | PyBool true => "True"
  | PyBool false => "False"
  | PyInt n => pretty n
  | PyStr s => repr_str s
  | PyList items => "[" +:+ PyStr.join ", " (map py_repr items) +:+ "]"
  | PyDict entries =>
      "{" +:+
      PyStr.join ", "
        (map (fun entry =>
                match entry with
                | (key, value) => repr_str key +:+ ": " +:+ py_repr value
                end)
           entries) +:+
      "}"
  | PyObj o => repr_object o
  end.

(** [str(v)], which is also what ["{}".format(v)] yields: a string is
    itself, every other value is its [repr]. *)
Definition py_str `{Runtime} (v : PyValue) : string :=
  match v with
  | PyStr s => s
  | _ => py_repr v
  end.

(** [pathlib.Path(name).suffix.lower().strip(".")], the expression that
    [_onThingFilesFinished] tests against the supported file types. *)
Definition extension `{Runtime} (file_name : string) : string :=
  PyStr.strip "." (str_lower (PyPath.suffix file_name)).

(** ** Outward actions *)

Inductive Signal : Type :=
| thingsChanged
| activeThingChanged
| activeThingFilesChanged
| downloadingStateChanged.

(** The callables handed to the API client: bound methods of the service
    and the closure built in [downloadThingFile], which captures the file
    name. *)
Inductive Callback : Type :=
| bound_onSearchFinished
| bound_onThingDetailsFinished
| bound_onThingFilesFinished
| bound_onRequestFailed
| lambda_onDownloadFinished (file_name : string).

Inductive Icon : Type := NoIcon | Information | Warning | Critical | Question.

Record QMessageBox : Type := {
  icon : Icon;
  windowTitle : string;
  text : string;
  detailedText : string
}.

Inductive QUrl : Type := QUrl_fromLocalFile (path : string).

Inductive Effect : Type :=
| Emit (sig : Signal)
| ApiSearch (terms : string) (on_finished on_failed : Callback) (page : Z)
| ApiGetThing (thing_id : Z) (on_finished on_failed : Callback)
| ApiGetThingFiles (thing_id : Z) (on_finished on_failed : Callback)
| ApiDownloadThingFile (file_id : Z) (on_finished : Callback)
| TempFileCreate (path : string)
| FileWrite (path : string) (data : list Byte.byte)
| FileClose (path : string)
| ReadLocalFile (url : QUrl)
| MessageBoxExec (mb : QMessageBox).

(** ** The service object and the world around it *)

Record ThingiverseService : Type := {
  _things : list JSONObject;
  _search_page : Z;
  _search_terms : string;
  _thing_details : option JSONObject;
  _thing_files : list JSONObject;
  _is_downloading : bool;
  _supported_file_types : list string
}.

Record World : Type := {
  self : ThingiverseService;
  trace : list Effect;
  tmp_count : nat
}.

Inductive Outcome (A : Type) : Type :=
| Returned (a : A)
| Raised (e : PyExn).
Arguments Returned {A} a.
Arguments Raised {A} e.

(** A statement of the program: it runs in a world, returns or raises,
    and leaves a world behind (what was mutated before a raise stays). *)
Definition M (A : Type) : Type := World -> Outcome A * World.

#[global] Instance M_ret : MRet M := fun A a w => (Returned a, w).

#[global] Instance M_bind : MBind M := fun A B k m w =>
  match m w with
  | (Returned a, w') => k a w'
  | (Raised e, w') => (Raised e, w')
  end.

Definition raise {A : Type} (e : PyExn) : M A := fun w => (Raised e, w).

Definition get_self : M ThingiverseService := fun w => (Returned (self w), w).

Definition put_self (s : ThingiverseService) : M unit := fun w =>
  (Returned tt, {| self := s; trace := trace w; tmp_count := tmp_count w |}).

Definition perform (e : Effect) : M unit := fun w =>
  (Returned tt, {| self := self w; trace := trace w ++ [e]; tmp_count := tmp_count w |}).

Definition emit (sig : Signal) : M unit := perform (Emit sig).

Definition next_tmp : M nat := fun w =>
  (Returned (tmp_count w),
   {| self := self w; trace := trace w; tmp_count := S (tmp_count w) |}).

(** Attribute assignment on [self] *)
Definition set_things (v : list JSONObject) (s : ThingiverseService) : ThingiverseService :=
  {| _things := v; _search_page := _search_page s; _search_terms := _search_terms s;
     _thing_details := _thing_details s; _thing_files := _thing_files s;
     _is_downloading := _is_downloading s;
     _supported_file_types := _supported_file_types s |}.

Definition set_search_page (v : Z) (s : ThingiverseService) : ThingiverseService :=
  {| _things := _things s; _search_page := v; _search_terms := _search_terms s;
     _thing_details := _thing_details s; _thing_files := _thing_files s;
     _is_downloading := _is_downloading s;
     _supported_file_types := _supported_file_types s |}.

Definition set_search_terms (v : string) (s : ThingiverseService) : ThingiverseService :=
  {| _things := _things s; _search_page := _search_page s; _search_terms := v;
     _thing_details := _thing_details s; _thing_files := _thing_files s;
     _is_downloading := _is_downloading s;
     _supported_file_types := _supported_file_types s |}.

Definition set_thing_details (v : option JSONObject) (s : ThingiverseService) : ThingiverseService :=
  {| _things := _things s; _search_page := _search_page s; _search_terms := _search_terms s;
     _thing_details := v; _thing_files := _thing_files s;
     _is_downloading := _is_downloading s;
     _supported_file_types := _supported_file_types s |}.

Definition set_thing_files (v : list JSONObject) (s : ThingiverseService) : ThingiverseService :=
  {| _things := _things s; _search_page := _search_page s; _search_terms := _search_terms s;
     _thing_details := _thing_details s; _thing_files := v;
     _is_downloading := _is_downloading s;
     _supported_file_types := _supported_file_types s |}.

Definition set_is_downloading (v : bool) (s : ThingiverseService) : ThingiverseService :=
  {| _things := _things s; _search_page := _search_page s; _search_terms := _search_terms s;
     _thing_details := _thing_details s; _thing_files := _thing_files s;
     _is_downloading := v;
     _supported_file_types := _supported_file_types s |}.

Definition set_supported_file_types (v : list string) (s : ThingiverseService) : ThingiverseService :=
  {| _things := _things s; _search_page := _search_page s; _search_terms := _search_terms s;
     _thing_details := _thing_details s; _thing_files := _thing_files s;
     _is_downloading := _is_downloading s;
     _supported_file_types := v |}.

Definition assign (f : ThingiverseService -> ThingiverseService) : M unit :=
  s ← get_self; put_self (f s).

(** [x in xs] on a list of strings *)
Fixpoint contains (x : string) (xs : list string) : bool :=
  match xs with
  | [] => false
  | y :: ys => String.eqb y x || contains x ys
  end.

(** ** The methods of [ThingiverseService] *)

(** [__init__]: the state of a fresh service. *)
Definition __init__ : ThingiverseService :=
  {| _things := []; _search_page := 1; _search_terms := "";
     _thing_details := None; _thing_files := [];
     _is_downloading := false; _supported_file_types := [] |}.

Definition fresh_world : World :=
  {| self := __init__; trace := []; tmp_count := O |}.

(** [updateSupportedFileTypes]: the argument is the dictionary that the
    host's mesh file handler answers with; only its keys are kept.  (The
    list is only ever tested for membership, so the order of the keys is
    immaterial.) *)
Definition updateSupportedFileTypes (supported_file_types : gmap string string) : M unit :=
  assign (set_supported_file_types (map_to_list supported_file_types).*1).

(** The read accessors (Qt properties). *)
Definition things (s : ThingiverseService) : list (list (string * PyValue)) :=
  map __dict__ (_things s).

Definition activeThing (s : ThingiverseService) : option (list (string * PyValue)) :=
  if truthy (_thing_details s) then __dict__ <$> _thing_details s else None.

Definition activeThingFiles (s : ThingiverseService) : list (list (string * PyValue)) :=
  map __dict__ (_thing_files s).

Definition hasActiveThing (s : ThingiverseService) : bool :=
  truthy (_thing_details s).

Definition isDownloading (s : ThingiverseService) : bool :=
  _is_downloading s.

Definition _clearSearchResults : M unit :=
  assign (set_things []);;
  emit thingsChanged.

Definition hideThingDetails : M unit :=
  assign (set_thing_details None);;
  emit activeThingChanged.

Definition search (search_terms : string) : M unit :=
  _clearSearchResults;;
  hideThingDetails;;
  assign (set_search_page 1);;
  assign (set_search_terms search_terms);;
  s ← get_self;
  perform (ApiSearch (_search_terms s) bound_onSearchFinished bound_onRequestFailed
             (_search_page s)).

Definition addSearchPage : M unit :=
  assign (fun s => set_search_page (_search_page s + 1) s);;
  s ← get_self;
  perform (ApiSearch (_search_terms s) bound_onSearchFinished bound_onRequestFailed
             (_search_page s)).

Definition showThingDetails (thing_id : Z) : M unit :=
  perform (ApiGetThing thing_id bound_onThingDetailsFinished bound_onRequestFailed);;
  perform (ApiGetThingFiles thing_id bound_onThingFilesFinished bound_onRequestFailed).

Definition downloadThingFile (file_id : Z) (file_name : string) : M unit :=
  assign (set_is_downloading true);;
  emit downloadingStateChanged;;
  perform (ApiDownloadThingFile file_id (lambda_onDownloadFinished file_name)).

Definition _onThingDetailsFinished (thing : JSONObject) : M unit :=
  assign (set_thing_details (Some thing));;
  emit activeThingChanged.

Section WithRuntime.
Context `{Runtime}.

(** [f.name], handed to [pathlib.Path]: the attribute may be missing, and
    [Path] refuses what is not a string. *)
Definition path_of_name (f : JSONObject) : M string :=
  match getattr f "name" with
  | Some (PyStr s) => mret s
  | Some _ => raise TypeError
  | None => raise (AttributeError "name")
  end.

(** The list comprehension of [_onThingFilesFinished]. *)
Fixpoint supported_files (supported : list string) (thing_files : list JSONObject)
  : M (list JSONObject) :=
  match thing_files with
  | [] => mret []
  | f :: rest =>
      p ← path_of_name f;
      kept ← supported_files supported rest;
      mret (if contains (extension p) supported then f :: kept else kept)
  end.

Definition _onThingFilesFinished (thing_files : list JSONObject) : M unit :=
  s ← get_self;
  kept ← supported_files (_supported_file_types s) thing_files;
  assign (set_thing_files kept);;
  emit activeThingFilesChanged.

(** [tempfile.TMP_MAX] *)
Definition TMP_MAX : nat := Z.to_nat 10000.

(** The loop of [tempfile._mkstemp_inner]: draw a candidate name, ask the
    operating system to create the file exclusively, try the next name
    when a file of that name exists, give up after [TMP_MAX] attempts;
    any other error of the creation is raised. *)
Fixpoint _mkstemp_inner (attempts : nat) (dir pre suf : string) : M string :=
  match attempts with
  | O => raise FileExistsError
  | S attempts' =>
      n ← next_tmp;
      let file := PyPath.join dir (pre +:+ random_name n +:+ suf) in
      match os_open n file with
      | Opened => perform (TempFileCreate file);; mret file
      | AlreadyExists => _mkstemp_inner attempts' dir pre suf
      | OpenFailed e => raise e
      end
  end.

(** [tempfile.NamedTemporaryFile(suffix=suffix, delete=False)]: the
    default prefix, a random middle part, then the suffix, in the
    temporary directory.  Returns the file's name, or raises when the
    operating system refuses the file (as it does for a suffix with a
    ['/'] or a NUL in it, or one that is too long).  The name is the
    joined path: the temporary directory is absolute and normal, and so
    is the path when the suffix has no separator. *)
Definition NamedTemporaryFile (suffix : string) : M string :=
  _mkstemp_inner TMP_MAX gettempdir "tmp" suffix.

(** [file.write(data)] and [file.close()] *)
Definition file_write (file : string) (data : list Byte.byte) : M unit := fun w =>
  match os_write (tmp_count w) file data with
  | Some e => (Raised e, w)
  | None => perform (FileWrite file data) w
  end.

Definition file_close (file : string) : M unit := fun w =>
  match os_close (tmp_count w) file with
  | Some e => (Raised e, w)
  | None => perform (FileClose file) w
  end.

Definition _onDownloadFinished (file_bytes : list Byte.byte) (file_name : string) : M unit :=
  file ← NamedTemporaryFile file_name;
  file_write file file_bytes;;
  file_close file;;
  perform (ReadLocalFile (QUrl_fromLocalFile file));;
  assign (set_is_downloading false);;
  emit downloadingStateChanged.

Definition _onSearchFinished (found : list JSONObject) : M unit :=
  assign (fun s => set_things (_things s ++ found) s);;
  emit thingsChanged.

(** The local [error_message] of [_onRequestFailed]: [error.error] when
    the error has that attribute, the error itself when it has not. *)
Definition error_message_of (error : option JSONObject) : PyValue :=
  match error with
  | Some e =>
      if truthy error
      then match getattr e "error" with
           | Some message => message
           | None => PyObj e
           end
      else PyStr "Unknown"
  | None => PyStr "Unknown"
  end.

(** [_onRequestFailed]: a static method, it has no [self]. *)
Definition _onRequestFailed (error : option JSONObject) : M unit :=
  let mb := {| icon := NoIcon; windowTitle := ""; text := ""; detailedText := "" |} in
  let mb := {| icon := Critical; windowTitle := windowTitle mb; text := text mb;
               detailedText := detailedText mb |} in
  let mb := {| icon := icon mb; windowTitle := "Oh no!"; text := text mb;
               detailedText := detailedText mb |} in
  let error_message := error_message_of error in
  let mb := {| icon := icon mb; windowTitle := windowTitle mb;
               text := "Thingiverse returned an error: " +:+ py_str error_message +:+ ".";
               detailedText := detailedText mb |} in
  let mb := {| icon := icon mb; windowTitle := windowTitle mb; text := text mb;
               detailedText :=
                 match error with
                 | Some e => if truthy error then py_str (PyDict (__dict__ e)) else ""
                 | None => ""
                 end |} in
  perform (MessageBoxExec mb).

(** ** The bridge as a state machine

    What can happen to a service: the host's window refreshes the file
    types, the UI calls a slot, or the API client calls back. *)
Inductive Call : Type :=
| call_updateSupportedFileTypes (supported_file_types : gmap string string)
| call_search (search_terms : string)
| call_addSearchPage
| call_showThingDetails (thing_id : Z)
| call_hideThingDetails
| call_downloadThingFile (file_id : Z) (file_name : string)
| back_onThingDetailsFinished (thing : JSONObject)
| back_onThingFilesFinished (thing_files : list JSONObject)
| back_onDownloadFinished (file_bytes : list Byte.byte) (file_name : string)
| back_onSearchFinished (found : list JSONObject)
| back_onRequestFailed (error : option JSONObject).

Definition step (c : Call) : M unit :=
  match c with
  | call_updateSupportedFileTypes t => updateSupportedFileTypes t
  | call_search terms => search terms
  | call_addSearchPage => addSearchPage
  | call_showThingDetails i => showThingDetails i
  | call_hideThingDetails => hideThingDetails
  | call_downloadThingFile i n => downloadThingFile i n
  | back_onThingDetailsFinished t => _onThingDetailsFinished t
  | back_onThingFilesFinished fs => _onThingFilesFinished fs
  | back_onDownloadFinished b n => _onDownloadFinished b n
  | back_onSearchFinished ts => _onSearchFinished ts
  | back_onRequestFailed e => _onRequestFailed e
  end.

(** The world a call leaves behind, whether it returned or raised. *)
Definition after (c : Call) (w : World) : World := (step c w).2.

Definition run (cs : list Call) (w : World) : World :=
  fold_left (fun w c => after c w) cs w.

(** What the dialog shows for the message: the [error] attribute of the
    error record when there is one, else the record itself, else the
    fixed word. *)
Definition shown_message (error : option JSONObject) : string :=
  match error with
  | Some e =>
      match getattr e "error" with
      | Some message => py_str message
      | None => py_str (PyObj e)
      end
  | None => "Unknown"
  end.

Definition shown_details (error : option JSONObject) : string :=
  match error with
  | Some e => py_str (PyDict (__dict__ e))
  | None => ""
  end.

(** The search request issued last, if any: its terms and its page. *)
Fixpoint last_search_request (tr : list Effect) : option (string * Z) :=
  match tr with
  | [] => None
  | e :: rest =>
      match last_search_request rest with
      | Some r => Some r
      | None =>
          match e with
          | ApiSearch terms _ _ page => Some (terms, page)
          | _ => None
          end
      end
  end.

(** The page counter and the stored terms are those of the search
    request issued last. *)
Definition page_tracks_request (w : World) : Prop :=
  forall terms page,
    last_search_request (trace w) = Some (terms, page) ->
    terms = _search_terms (self w) /\ page = _search_page (self w).

(** Whether a call is the completion of a download of [file_name]: the
    closure handed to the API client by [downloadThingFile] runs
    [_onDownloadFinished] with the file name it captured. *)
Definition completes (file_name : string) (c : Call) : bool :=
  match c with
  | back_onDownloadFinished _ n => String.eqb n file_name
  | _ => false
  end.

(** The downloading flag as the specification words it, download by
    download: right after the call it is true, and once a download has
    been started the flag is false only if the completion of that very
    download has run since. *)
Definition flag_true_until_own_completion : Prop :=
  (forall (w : World) (file_id : Z) (file_name : string),
     isDownloading (self (after (call_downloadThingFile file_id file_name) w)) = true) /\
  (forall (earlier later : list Call) (file_id : Z) (file_name : string),
     isDownloading
       (self (run (earlier ++ call_downloadThingFile file_id file_name :: later)
                fresh_world)) = false ->
     existsb (completes file_name) later = true).

(** Whether a thing file carries a string [name] whose extension is one
    of [supported]. *)
Definition has_supported_extension (supported : list string) (f : JSONObject) : bool :=
  match getattr f "name" with
  | Some (PyStr file_name) => contains (extension file_name) supported
  | _ => false
  end.

Definition is_refresh (c : Call) : bool :=
  match c with
  | call_updateSupportedFileTypes _ => true
  | _ => false
  end.

(** ** Further vocabulary for histories of calls *)

(** Whether a thing file carries a string [name]. *)
Definition named (f : JSONObject) : Prop :=
  exists file_name, getattr f "name" = Some (PyStr file_name).

Definition is_files_callback (c : Call) : bool :=
  match c with
  | back_onThingFilesFinished _ => true
  | _ => false
  end.

Definition is_search (c : Call) : bool :=
  match c with
  | call_search _ => true
  | _ => false
  end.

Definition is_addSearchPage (c : Call) : bool :=
  match c with
  | call_addSearchPage => true
  | _ => false
  end.

Definition is_failure_callback (c : Call) : bool :=
  match c with
  | back_onRequestFailed _ => true
  | _ => false
  end.

Definition is_download_completion (c : Call) : bool :=
  match c with
  | back_onDownloadFinished _ _ => true
  | _ => false
  end.

(** What the search callbacks among [cs] delivered, in order of arrival. *)
Fixpoint deliveries (cs : list Call) : list JSONObject :=
  match cs with
  | [] => []
  | back_onSearchFinished found :: cs' => found ++ deliveries cs'
  | _ :: cs' => deliveries cs'
  end.

(** The search requests of a trace, in order: terms and page of each. *)
Fixpoint search_requests (tr : list Effect) : list (string * Z) :=
  match tr with
  | [] => []
  | ApiSearch terms _ _ page :: rest => (terms, page) :: search_requests rest
  | _ :: rest => search_requests rest
  end.

(** [n] consecutive pages of the same terms, from page [first] on. *)
Fixpoint consecutive_pages (terms : string) (first : Z) (n : nat) : list (string * Z) :=
  match n with
  | O => []
  | S n' => (terms, first) :: consecutive_pages terms (first + 1) n'
  end.

Definition is_dialog (e : Effect) : bool :=
  match e with
  | MessageBoxExec _ => true
  | _ => false
  end.

Definition is_import (e : Effect) : bool :=
  match e with
  | ReadLocalFile _ => true
  | _ => false
  end.

Definition is_file_write (e : Effect) : bool :=
  match e with
  | FileWrite _ _ => true
  | _ => false
  end.

(** How many elements of a list satisfy a test. *)
Definition count {A : Type} (p : A -> bool) (l : list A) : nat :=
  length (List.filter p l).

(** The page counter and the pages requested so far are at least 1. *)
Definition pages_positive (w : World) : Prop :=
  1 <= _search_page (self w) /\
  Forall (fun r : string * Z => 1 <= r.2) (search_requests (trace w)).

(** The calls that assign [_thing_details]. *)
Definition sets_active_thing (c : Call) : bool :=
  match c with
  | call_search _ | call_hideThingDetails | back_onThingDetailsFinished _ => true
  | _ => false
  end.


(** Whether a statement returned. *)
Definition returned {A : Type} (r : Outcome A * World) : bool :=
  match r.1 with
  | Returned _ => true
  | Raised _ => false
  end.

(** How many download completions among [cs], run from [w], returned. *)
Fixpoint completed_downloads (cs : list Call) (w : World) : nat :=
  match cs with
  | [] => O
  | c :: cs' =>
      ((if is_download_completion c && returned (step c w) then 1 else 0) +
       completed_downloads cs' (after c w))%nat
  end.

End WithRuntime.

(** A runtime to evaluate the model on concrete inputs: ASCII case
    folding, strings shown between single quotes, and an operating system
    that refuses what a POSIX system refuses whatever its state: a name
    with a NUL, a path below the directory (of random name, so missing)
    that a ['/'] in the suffix makes, and a file name of more than 255
    bytes. *)
Definition sample_os_open (n : nat) (path : string) : OpenResult :=
  let file := PyStr.drop 5 path in
  if PyStr.mem "000"%char path then OpenFailed ValueError
  else if PyStr.mem PyPath.sep file then OpenFailed FileNotFoundError
  else if 255 <? PyStr.len file then OpenFailed OSError
  else Opened.

Definition sample_runtime : Runtime :=
  {| str_lower := PyStr.lower_ascii;
     str_lower_ascii := fun s _ => eq_refl;
     repr_str := fun s => "'" +:+ s +:+ "'";
     repr_object := fun _ => "<JSONObject object>";
     gettempdir := "/tmp";
     random_name := fun n => "rnd" +:+ pretty n;
     os_open := sample_os_open;
     os_write := fun _ _ _ => None;
     os_close := fun _ _ => None |}.

(** Sample data: two files of a thing, a search result, and the file
    types a host reports. *)
Definition benchy_stl : JSONObject :=
  JSONObject_of [("id", PyInt 4013); ("name", PyStr "Benchy.STL"); ("size", PyInt 11285384)].

Definition readme_txt : JSONObject :=
  JSONObject_of [("id", PyInt 4014); ("name", PyStr "README.txt"); ("size", PyInt 512)].

Definition benchy_thing : JSONObject :=
  JSONObject_of [("id", PyInt 763622); ("name", PyStr "#3DBenchy")].

Definition host_file_types : gmap string string :=
  <["stl" := "STL File"]> (<["obj" := "Wavefront OBJ File"]> ∅).

Definition not_found : JSONObject :=
  JSONObject_of [("error", PyStr "Not Found")].

(** * Properties *)

Example extension_stl : @extension sample_runtime "Benchy.STL" = "stl".
Proof. reflexivity. Qed.

Example extension_two_dots : @extension sample_runtime "part.v2.Obj" = "obj".
Proof. reflexivity. Qed.

Example extension_none : @extension sample_runtime "README" = "".
Proof. reflexivity. Qed.

Example extension_hidden : @extension sample_runtime ".stl" = "".
Proof. reflexivity. Qed.

Example extension_trailing_dot : @extension sample_runtime "model." = "".
Proof. reflexivity. Qed.

Example extension_in_directory : @extension sample_runtime "v1.2/readme" = "".
Proof. reflexivity. Qed.

(** ** Running statements *)

(** Unfold a straight-line method on a world given by its parts. *)
Ltac run_method :=
  cbv [ _clearSearchResults hideThingDetails search addSearchPage showThingDetails
        downloadThingFile _onThingDetailsFinished _onSearchFinished _onRequestFailed
        updateSupportedFileTypes
        assign emit perform get_self put_self next_tmp raise
        mbind mret M_bind M_ret self trace tmp_count ];
  rewrite <- ?app_assoc; cbn [app].

Section Properties.
Context `{Runtime}.

(** *** hideThingDetails *)

Lemma hideThingDetails_runs (w : World) :
  hideThingDetails w =
    (Returned tt,
     {| self := set_thing_details None (self w);
        trace := trace w ++ [Emit activeThingChanged];
        tmp_count := tmp_count w |}).
Proof. destruct w. run_method. reflexivity. Qed.

(** *** The shared failure handler *)

Lemma onRequestFailed_runs (error : option JSONObject) (w : World) :
  _onRequestFailed error w =
    (Returned tt,
     {| self := self w;
        trace := trace w ++
          [MessageBoxExec
             {| icon := Critical; windowTitle := "Oh no!";
                text := "Thingiverse returned an error: " +:+ shown_message error +:+ ".";
                detailedText := shown_details error |}];
        tmp_count := tmp_count w |}).
Proof.
  destruct w. run_method.
  destruct error as [e|]; [|reflexivity].
  cbn. unfold error_message_of, shown_message. cbn.
  by destruct (getattr e "error").
Qed.

(** C6: with or without an error payload the failure handler returns
    (nothing is raised) and adds exactly one action to the trace, the
    execution of one dialog.  Its text is the fixed sentence around the
    message: ["Unknown"] when no error was passed; else the [error]
    attribute of the record when it has one, a string as it is and any
    other value as Python prints it; else the record itself as Python
    prints an object.  Its detailed text is empty when no error was
    passed, else the dump of the record's [__dict__]: every attribute in
    order, name and value, between braces. *)
Theorem onRequestFailed_one_dialog (error : option JSONObject) (w : World) :
  exists (w' : World) (mb : QMessageBox),
    _onRequestFailed error w = (Returned tt, w') /\
    trace w' = trace w ++ [MessageBoxExec mb] /\
    icon mb = Critical /\
    windowTitle mb = "Oh no!" /\
    text mb =
      "Thingiverse returned an error: " +:+
      match error with
      | None => "Unknown"
      | Some e =>
          match getattr e "error" with
          | Some (PyStr message) => message
          | Some PyNone => "None"
          | Some (PyBool true) => "True"
          | Some (PyBool false) => "False"
          | Some (PyInt n) => pretty n
          | Some (PyList items) =>
              "[" +:+ PyStr.join ", " (map py_repr items) +:+ "]"
          | Some (PyDict entries) =>
              "{" +:+
              PyStr.join ", "
                (map (fun entry =>
                        match entry with
                        | (key, value) => repr_str key +:+ ": " +:+ py_repr value
                        end)
                   entries) +:+
              "}"
          | Some (PyObj o) => repr_object o
          | None => repr_object e
          end
      end +:+ "." /\
    detailedText mb =
      match error with
      | None => ""
      | Some e =>
          "{" +:+
          PyStr.join ", "
            (map (fun entry =>
                    match entry with
                    | (key, value) => repr_str key +:+ ": " +:+ py_repr value
                    end)
               (__dict__ e)) +:+
          "}"
      end.
Proof.
  do 2 eexists. split; [apply onRequestFailed_runs|].
  do 3 (split; [reflexivity|]).
  destruct error as [e|]; [|by split].
  split; [|reflexivity].
  cbn [text shown_message]. destruct (getattr e "error") as [[| [] | | | | |]|]; reflexivity.
Qed.

(** C7: the failure handler changes nothing of the service.  The whole
    object is as before, so are the results, the search terms, the page
    counter, the active thing, its files and the downloading flag, and
    every accessor answers as before. *)
Theorem onRequestFailed_keeps_state (error : option JSONObject) (w : World) :
  exists w',
    _onRequestFailed error w = (Returned tt, w') /\
    self w' = self w /\
    _things (self w') = _things (self w) /\
    _search_terms (self w') = _search_terms (self w) /\
    _search_page (self w') = _search_page (self w) /\
    _thing_details (self w') = _thing_details (self w) /\
    _thing_files (self w') = _thing_files (self w) /\
    _is_downloading (self w') = _is_downloading (self w) /\
    things (self w') = things (self w) /\
    activeThing (self w') = activeThing (self w) /\
    hasActiveThing (self w') = hasActiveThing (self w) /\
    activeThingFiles (self w') = activeThingFiles (self w) /\
    isDownloading (self w') = isDownloading (self w).
Proof.
  eexists. split; [apply onRequestFailed_runs|].
  repeat split.
Qed.

(** *** Searching and paging *)

Lemma search_runs (search_terms : string) (w : World) :
  search search_terms w =
    (Returned tt,
     {| self :=
          set_search_terms search_terms
            (set_search_page 1 (set_thing_details None (set_things [] (self w))));
        trace := trace w ++
          [Emit thingsChanged; Emit activeThingChanged;
           ApiSearch search_terms bound_onSearchFinished bound_onRequestFailed 1];
        tmp_count := tmp_count w |}).
Proof. destruct w. run_method. reflexivity. Qed.

Lemma addSearchPage_runs (w : World) :
  addSearchPage w =
    (Returned tt,
     {| self := set_search_page (_search_page (self w) + 1) (self w);
        trace := trace w ++
          [ApiSearch (_search_terms (self w)) bound_onSearchFinished bound_onRequestFailed
             (_search_page (self w) + 1)];
        tmp_count := tmp_count w |}).
Proof. destruct w. run_method. reflexivity. Qed.

Lemma onSearchFinished_runs (found : list JSONObject) (w : World) :
  _onSearchFinished found w =
    (Returned tt,
     {| self := set_things (_things (self w) ++ found) (self w);
        trace := trace w ++ [Emit thingsChanged];
        tmp_count := tmp_count w |}).
Proof. destruct w. run_method. reflexivity. Qed.

(** C3: [search] returns with the results cleared, no active thing, the
    page counter at 1 and the terms stored; it notifies and issues one
    request, a search for those terms at page 1.  When the success
    callback then delivers [found], the results are exactly [found] (as
    many and the same, in order) and there is still no active thing. *)
Theorem search_resets_and_requests_page_one
    (search_terms : string) (found : list JSONObject) (w : World) :
  exists w1,
    search search_terms w = (Returned tt, w1) /\
    _things (self w1) = [] /\
    things (self w1) = [] /\
    hasActiveThing (self w1) = false /\
    activeThing (self w1) = None /\
    _search_page (self w1) = 1 /\
    _search_terms (self w1) = search_terms /\
    trace w1 = trace w ++
      [Emit thingsChanged; Emit activeThingChanged;
       ApiSearch search_terms bound_onSearchFinished bound_onRequestFailed 1] /\
    exists w2,
      _onSearchFinished found w1 = (Returned tt, w2) /\
      _things (self w2) = found /\
      things (self w2) = map __dict__ found /\
      length (things (self w2)) = length found /\
      activeThing (self w2) = None /\
      hasActiveThing (self w2) = false.
Proof.
  eexists. split; [apply search_runs|].
  do 7 (split; [reflexivity|]).
  eexists. split; [apply onSearchFinished_runs|].
  cbn. repeat split. apply length_map.
Qed.

(** *** The files callback, which may raise *)

Lemma path_of_name_world (f : JSONObject) (w : World) :
  exists o, path_of_name f w = (o, w).
Proof.
  unfold path_of_name. destruct (getattr f "name") as [[]|]; eexists; reflexivity.
Qed.

Lemma supported_files_world (supported : list string) (thing_files : list JSONObject)
    (w : World) :
  exists o, supported_files supported thing_files w = (o, w).
Proof.
  induction thing_files as [|f rest IH]; cbn.
  - eexists; reflexivity.
  - unfold mbind, M_bind.
    destruct (path_of_name_world f w) as [[p|e] ->]; [|eexists; reflexivity].
    destruct IH as [[kept|e] ->]; eexists; reflexivity.
Qed.

Lemma onThingFilesFinished_cases (thing_files : list JSONObject) (w : World) :
  (exists e, _onThingFilesFinished thing_files w = (Raised e, w)) \/
  (exists kept,
     supported_files (_supported_file_types (self w)) thing_files w = (Returned kept, w) /\
     _onThingFilesFinished thing_files w =
       (Returned tt,
        {| self := set_thing_files kept (self w);
           trace := trace w ++ [Emit activeThingFilesChanged];
           tmp_count := tmp_count w |})).
Proof.
  unfold _onThingFilesFinished, mbind, M_bind, get_self.
  destruct (supported_files_world (_supported_file_types (self w)) thing_files w)
    as [[kept|e] Hrun]; rewrite Hrun.
  - right. exists kept. split; [reflexivity|]. destruct w. reflexivity.
  - left. eexists; reflexivity.
Qed.

(** *** What every call leaves alone *)

Lemma last_search_request_app (tr tr' : list Effect) :
  last_search_request (tr ++ tr') =
    match last_search_request tr' with
    | Some r => Some r
    | None => last_search_request tr
    end.
Proof.
  induction tr as [|e tr IH]; cbn.
  - by destruct (last_search_request tr').
  - rewrite IH. by destruct (last_search_request tr').
Qed.

Lemma page_tracks_request_fresh : page_tracks_request fresh_world.
Proof. intros terms page Hlast. discriminate Hlast. Qed.

Lemma updateSupportedFileTypes_runs (supported : gmap string string) (w : World) :
  updateSupportedFileTypes supported w =
    (Returned tt,
     {| self := set_supported_file_types (map_to_list supported).*1 (self w);
        trace := trace w;
        tmp_count := tmp_count w |}).
Proof. destruct w. reflexivity. Qed.

Lemma showThingDetails_runs (thing_id : Z) (w : World) :
  showThingDetails thing_id w =
    (Returned tt,
     {| self := self w;
        trace := trace w ++
          [ApiGetThing thing_id bound_onThingDetailsFinished bound_onRequestFailed;
           ApiGetThingFiles thing_id bound_onThingFilesFinished bound_onRequestFailed];
        tmp_count := tmp_count w |}).
Proof. destruct w. run_method. reflexivity. Qed.

Lemma downloadThingFile_runs (file_id : Z) (file_name : string) (w : World) :
  downloadThingFile file_id file_name w =
    (Returned tt,
     {| self := set_is_downloading true (self w);
        trace := trace w ++
          [Emit downloadingStateChanged;
           ApiDownloadThingFile file_id (lambda_onDownloadFinished file_name)];
        tmp_count := tmp_count w |}).
Proof. destruct w. run_method. reflexivity. Qed.

Lemma onThingDetailsFinished_runs (thing : JSONObject) (w : World) :
  _onThingDetailsFinished thing w =
    (Returned tt,
     {| self := set_thing_details (Some thing) (self w);
        trace := trace w ++ [Emit activeThingChanged];
        tmp_count := tmp_count w |}).
Proof. destruct w. run_method. reflexivity. Qed.

(** *** The download completion, which may raise *)

Lemma mkstemp_inner_cases (attempts : nat) (dir pre suf : string) (w : World) :
  (exists e k,
     _mkstemp_inner attempts dir pre suf w =
       (Raised e, {| self := self w; trace := trace w; tmp_count := k |})) \/
  (exists n k,
     os_open n (PyPath.join dir (pre +:+ random_name n +:+ suf)) = Opened /\
     _mkstemp_inner attempts dir pre suf w =
       (Returned (PyPath.join dir (pre +:+ random_name n +:+ suf)),
        {| self := self w;
           trace := trace w ++
             [TempFileCreate (PyPath.join dir (pre +:+ random_name n +:+ suf))];
           tmp_count := k |})).
Proof.
  revert w. induction attempts as [|attempts IH]; intros w.
  - left. exists FileExistsError, (tmp_count w). by destruct w.
  - cbn [_mkstemp_inner]. unfold mbind, M_bind, next_tmp.
    destruct (os_open (tmp_count w)
                (PyPath.join dir (pre +:+ random_name (tmp_count w) +:+ suf))) eqn:Hopen.
    + right. exists (tmp_count w), (S (tmp_count w)). split; [exact Hopen|]. reflexivity.
    + apply (IH {| self := self w; trace := trace w; tmp_count := S (tmp_count w) |}).
    + left. eexists _, _. reflexivity.
Qed.

(** The four ways a completion ends: the file is refused, the write
    fails, the close fails, or everything is done. *)
Lemma onDownloadFinished_cases (file_bytes : list Byte.byte) (file_name : string)
    (w : World) :
  (exists e k,
     _onDownloadFinished file_bytes file_name w =
       (Raised e, {| self := self w; trace := trace w; tmp_count := k |})) \/
  (exists e k file,
     _onDownloadFinished file_bytes file_name w =
       (Raised e,
        {| self := self w; trace := trace w ++ [TempFileCreate file]; tmp_count := k |})) \/
  (exists e k file,
     _onDownloadFinished file_bytes file_name w =
       (Raised e,
        {| self := self w;
           trace := trace w ++ [TempFileCreate file; FileWrite file file_bytes];
           tmp_count := k |})) \/
  (exists n k,
     os_open n (PyPath.join gettempdir ("tmp" +:+ random_name n +:+ file_name)) = Opened /\
     os_write k (PyPath.join gettempdir ("tmp" +:+ random_name n +:+ file_name))
       file_bytes = None /\
     os_close k (PyPath.join gettempdir ("tmp" +:+ random_name n +:+ file_name)) = None /\
     _onDownloadFinished file_bytes file_name w =
       (Returned tt,
        {| self := set_is_downloading false (self w);
           trace := trace w ++
             [TempFileCreate
                (PyPath.join gettempdir ("tmp" +:+ random_name n +:+ file_name));
              FileWrite
                (PyPath.join gettempdir ("tmp" +:+ random_name n +:+ file_name))
                file_bytes;
              FileClose
                (PyPath.join gettempdir ("tmp" +:+ random_name n +:+ file_name));
              ReadLocalFile
                (QUrl_fromLocalFile
                   (PyPath.join gettempdir ("tmp" +:+ random_name n +:+ file_name)));
              Emit downloadingStateChanged];
           tmp_count := k |})).
Proof.
  destruct (mkstemp_inner_cases TMP_MAX gettempdir "tmp" file_name w)
    as [(e & k & Hmk)|(n & k & Hopen & Hmk)].
  { left. exists e, k.
    unfold _onDownloadFinished, NamedTemporaryFile, mbind, M_bind. by rewrite Hmk. }
  right.
  set (file := PyPath.join gettempdir ("tmp" +:+ random_name n +:+ file_name)) in *.
  destruct (os_write k file file_bytes) as [e|] eqn:Hwrite.
  { left. exists e, k, file.
    unfold _onDownloadFinished, NamedTemporaryFile, mbind, M_bind, file_write.
    rewrite Hmk. cbn [tmp_count]. by rewrite Hwrite. }
  right.
  destruct (os_close k file) as [e|] eqn:Hclose.
  { left. exists e, k, file.
    unfold _onDownloadFinished, NamedTemporaryFile, mbind, M_bind, file_write, file_close.
    rewrite Hmk. cbn [tmp_count]. rewrite Hwrite. unfold perform.
    cbn [tmp_count trace self]. rewrite Hclose, <- app_assoc. reflexivity. }
  right. exists n, k. split; [exact Hopen|]. split; [exact Hwrite|]. split; [exact Hclose|].
  unfold _onDownloadFinished, NamedTemporaryFile, mbind, M_bind, file_write, file_close.
  rewrite Hmk. cbn [tmp_count]. rewrite Hwrite. unfold perform at 1.
  cbn [tmp_count trace self]. rewrite Hclose. run_method. reflexivity.
Qed.

(** Case analysis on a call, each case rewritten to the world it leaves. *)
Ltac step_cases c w :=
  unfold after; destruct c as [? | ? | | ? | | ? ? | ? | fs | fb fn | ? | ?]; cbn [step];
  [ rewrite updateSupportedFileTypes_runs
  | rewrite search_runs
  | rewrite addSearchPage_runs
  | rewrite showThingDetails_runs
  | rewrite hideThingDetails_runs
  | rewrite downloadThingFile_runs
  | rewrite onThingDetailsFinished_runs
  | destruct (onThingFilesFinished_cases fs w) as [[? ->]|(? & ? & ->)]
  | destruct (onDownloadFinished_cases fb fn w)
      as [(? & ? & ->)|[(? & ? & ? & ->)|[(? & ? & ? & ->)|(? & ? & _ & _ & _ & ->)]]]
  | rewrite onSearchFinished_runs
  | rewrite onRequestFailed_runs ];
  cbn [snd self trace tmp_count].

Lemma page_tracks_request_after (c : Call) (w : World) :
  page_tracks_request w -> page_tracks_request (after c w).
Proof.
  intros Hw terms page. step_cases c w.
  all: rewrite ?last_search_request_app; cbn;
       first [ intros [= <- <-]; by split | apply Hw ].
Qed.

Lemma page_tracks_request_run (cs : list Call) (w : World) :
  page_tracks_request w -> page_tracks_request (run cs w).
Proof.
  revert w. induction cs as [|c cs IH]; intros w Hw; [exact Hw|].
  cbn. apply IH. by apply page_tracks_request_after.
Qed.

(** C4: [addSearchPage] returns with the page counter one higher and
    issues one request, a search for the stored terms at that page.  In
    a service that has run from its construction, the request carries the
    terms of the search request issued before it and a page one greater.
    When the success callback delivers [found], whatever the results
    then are, [found] is appended to them and they all stay, in order. *)
Theorem addSearchPage_requests_next_page (w : World) :
  (exists w1,
     addSearchPage w = (Returned tt, w1) /\
     _search_page (self w1) = _search_page (self w) + 1 /\
     _search_terms (self w1) = _search_terms (self w) /\
     _things (self w1) = _things (self w) /\
     trace w1 = trace w ++
       [ApiSearch (_search_terms (self w)) bound_onSearchFinished bound_onRequestFailed
          (_search_page (self w) + 1)] /\
     forall cs terms page,
       w = run cs fresh_world ->
       last_search_request (trace w) = Some (terms, page) ->
       last_search_request (trace w1) = Some (terms, page + 1)) /\
  (forall (found : list JSONObject) (w' : World),
     exists w2,
       _onSearchFinished found w' = (Returned tt, w2) /\
       _things (self w2) = _things (self w') ++ found /\
       things (self w2) = things (self w') ++ map __dict__ found).
Proof.
  split.
  - eexists. split; [apply addSearchPage_runs|].
    do 4 (split; [reflexivity|]).
    intros cs terms page -> Hlast.
    apply (page_tracks_request_run cs fresh_world page_tracks_request_fresh) in Hlast
      as [-> ->].
    cbn. rewrite last_search_request_app. reflexivity.
  - intros found w'. eexists. split; [apply onSearchFinished_runs|].
    split; [reflexivity|]. cbn. unfold things. cbn. apply map_app.
Qed.

(** *** What every call leaves of the files *)

Lemma thing_files_kept (c : Call) (w : World) :
  is_files_callback c = false ->
  _thing_files (self (after c w)) = _thing_files (self w).
Proof. intros Hc. revert Hc. step_cases c w; intros Hc; first [reflexivity|discriminate Hc]. Qed.

(** *** hideThingDetails, again *)

(** C9: [hideThingDetails] returns, afterwards there is no active thing
    ([activeThing] is absent and [hasActiveThing] is false), and the
    active-thing notification is emitted exactly once: it is the one
    action the call adds to the trace. *)
Theorem hideThingDetails_clears_active_thing (w : World) :
  exists w',
    hideThingDetails w = (Returned tt, w') /\
    _thing_details (self w') = None /\
    activeThing (self w') = None /\
    hasActiveThing (self w') = false /\
    trace w' = trace w ++ [Emit activeThingChanged].
Proof.
  eexists. split; [apply hideThingDetails_runs|]. by cbn.
Qed.

(** C10: [hideThingDetails] does not touch the active thing's files:
    the list and what [activeThingFiles] returns are as before, and the
    call emits no files notification.  A call changes the list only when
    it is the files callback, and a fresh service starts with none. *)
Theorem hideThingDetails_keeps_files (w : World) :
  (exists w',
     hideThingDetails w = (Returned tt, w') /\
     _thing_files (self w') = _thing_files (self w) /\
     activeThingFiles (self w') = activeThingFiles (self w) /\
     exists emitted,
       trace w' = trace w ++ emitted /\
       ~ In (Emit activeThingFilesChanged) emitted) /\
  (forall c : Call,
     _thing_files (self (after c w)) <> _thing_files (self w) ->
     exists thing_files, c = back_onThingFilesFinished thing_files) /\
  activeThingFiles __init__ = [].
Proof.
  split; [|split; [|reflexivity]].
  - eexists. split; [apply hideThingDetails_runs|].
    do 2 (split; [reflexivity|]).
    eexists. split; [reflexivity|].
    intros [Hin|[]]. discriminate Hin.
  - intros c Hchanged.
    destruct c; try (exfalso; apply Hchanged; apply thing_files_kept; reflexivity).
    eauto.
Qed.

(** *** The results list *)

Lemma things_after (c : Call) (w : World) :
  _things (self (after c w)) =
    match c with
    | call_search _ => []
    | back_onSearchFinished found => _things (self w) ++ found
    | _ => _things (self w)
    end.
Proof. step_cases c w; reflexivity. Qed.

(** C8: whatever the call (slot or callback, returning or raising), the
    results afterwards are the results before, or those with new items
    appended at the end, or the empty list.  So unless the list ends up
    empty, the old results are still there as a prefix: nothing is
    removed from them and nothing reordered.  Only [search] empties and
    only the search callback appends. *)
Theorem results_grow_or_clear (c : Call) (w : World) :
  (_things (self (after c w)) = _things (self w) \/
   (exists new, _things (self (after c w)) = _things (self w) ++ new) \/
   _things (self (after c w)) = []) /\
  (_things (self (after c w)) <> [] ->
   exists new, _things (self (after c w)) = _things (self w) ++ new) /\
  _things (self (after c w)) =
    match c with
    | call_search _ => []
    | back_onSearchFinished found => _things (self w) ++ found
    | _ => _things (self w)
    end.
Proof.
  pose proof (things_after c w) as Hc.
  split; [|split; [|exact Hc]].
  - destruct c; rewrite Hc; eauto.
  - intros Hne. destruct c; rewrite Hc in *;
      first [ by exists [] ; rewrite app_nil_r | by eauto | done ].
Qed.

(** *** The downloading flag *)

Lemma is_downloading_kept (c : Call) (w : World) :
  is_download_completion c = false ->
  _is_downloading (self (after c w)) =
    match c with
    | call_downloadThingFile _ _ => true
    | _ => _is_downloading (self w)
    end.
Proof.
  intros Hc. revert Hc.
  step_cases c w; intros Hc; first [reflexivity|discriminate Hc].
Qed.

Lemma flag_false_needs_completion (cs : list Call) (w : World) :
  _is_downloading (self w) = true ->
  _is_downloading (self (run cs w)) = false ->
  exists file_bytes file_name, In (back_onDownloadFinished file_bytes file_name) cs.
Proof.
  revert w. induction cs as [|c cs IH]; intros w Hon Hoff; cbn in Hoff.
  - congruence.
  - destruct (_is_downloading (self (after c w))) eqn:Hc.
    + destruct (IH _ Hc Hoff) as (b & n & Hin). exists b, n. by right.
    + destruct (is_download_completion c) eqn:Hcompletion.
      * destruct c; try discriminate Hcompletion. eexists _, _. by left.
      * rewrite (is_downloading_kept c w Hcompletion) in Hc.
        destruct c; congruence.
Qed.

(** A completion that returns has cleared the flag; one that raises has
    left the service as it was. *)
Lemma onDownloadFinished_outcome (file_bytes : list Byte.byte) (file_name : string)
    (w : World) (o : Outcome unit) (w' : World) :
  _onDownloadFinished file_bytes file_name w = (o, w') ->
  match o with
  | Returned _ => _is_downloading (self w') = false
  | Raised _ => self w' = self w
  end.
Proof.
  destruct (onDownloadFinished_cases file_bytes file_name w)
    as [(? & ? & ->)|[(? & ? & ? & ->)|[(? & ? & ? & ->)|(? & ? & _ & _ & _ & ->)]]];
    intros [= <- <-]; reflexivity.
Qed.

(** C2, as the code has it: right after [downloadThingFile] the flag is
    true; from then on, whatever calls follow, [isDownloading] is false
    only if a download-completion callback is among them; and a
    completion callback that returns, of whichever download, has set the
    flag to false. *)
Theorem downloading_flag_until_a_completion
    (file_id : Z) (file_name : string) (w : World) :
  (exists w1,
     downloadThingFile file_id file_name w = (Returned tt, w1) /\
     isDownloading (self w1) = true /\
     forall cs : list Call,
       isDownloading (self (run cs w1)) = false ->
       exists file_bytes completed,
         In (back_onDownloadFinished file_bytes completed) cs) /\
  (forall (file_bytes : list Byte.byte) (completed : string) (w' w2 : World),
     _onDownloadFinished file_bytes completed w' = (Returned tt, w2) ->
     isDownloading (self w2) = false).
Proof.
  split.
  - eexists. split; [apply downloadThingFile_runs|]. split; [reflexivity|].
    intros cs. by apply flag_false_needs_completion.
  - intros file_bytes completed w' w2 Hrun.
    exact (onDownloadFinished_outcome _ _ _ _ _ Hrun).
Qed.

(** *** Strings and paths *)





Lemma split_without_sep (s : string) :
  PyStr.mem PyPath.sep s = false -> PyStr.split PyPath.sep s = [s].
Proof.
  induction s as [|x s IH]; [reflexivity|].
  cbn [PyStr.mem PyStr.split]. intros [Hx Hs]%orb_false_iff.
  rewrite Ascii.eqb_sym in Hx. rewrite Hx, (IH Hs). reflexivity.
Qed.

(** For a bare file name, one without a separator, pathlib's suffix of
    the path is the suffix of that name. *)
Lemma suffix_of_bare_name (file_name : string) :
  PyStr.mem PyPath.sep file_name = false ->
  PyPath.suffix file_name = PyPath.suffix_of_name file_name.
Proof.
  intros Hbare. unfold PyPath.suffix, PyPath.name, PyPath.components.
  rewrite (split_without_sep _ Hbare). cbn [List.filter].
  destruct (PyPath.is_component file_name) eqn:Hc; [reflexivity|].
  unfold PyPath.is_component in Hc.
  apply andb_false_iff in Hc as [Hc|Hc]; apply negb_false_iff, String.eqb_eq in Hc;
    by subst.
Qed.


Lemma rfind_absent (c : ascii) (s : string) :
  PyStr.mem c s = false -> PyStr.rfind c s = -1.
Proof.
  induction s as [|a s IH]; [reflexivity|].
  cbn [PyStr.mem PyStr.rfind]. intros [Ha Hs]%orb_false_iff.
  rewrite (IH Hs), Ascii.eqb_sym, Ha. reflexivity.
Qed.

Lemma rfind_last (c : ascii) (stem rest : string) :
  PyStr.mem c rest = false ->
  PyStr.rfind c (stem +:+ String c rest) = PyStr.len stem.
Proof.
  intros Hrest. induction stem as [|a stem IH].
  - change ("" +:+ String c rest) with (String c rest).
    cbn [PyStr.rfind]. rewrite (rfind_absent _ _ Hrest), Ascii.eqb_refl. reflexivity.
  - change (String a stem +:+ String c rest) with (String a (stem +:+ String c rest)).
    cbn [PyStr.rfind]. rewrite IH. unfold PyStr.len.
    destruct (0 <=? Z.of_nat (String.length stem)) eqn:Hle.
    + cbn [String.length]. lia.
    + apply Z.leb_gt in Hle. lia.
Qed.

Lemma length_append (a b : string) :
  String.length (a +:+ b) = (String.length a + String.length b)%nat.
Proof.
  induction a as [|x a IH]; [reflexivity|].
  change (String x a +:+ b) with (String x (a +:+ b)). cbn [String.length]. by rewrite IH.
Qed.

Lemma drop_append (stem rest : string) :
  PyStr.drop (String.length stem) (stem +:+ rest) = rest.
Proof.
  induction stem as [|a stem IH]; [reflexivity|].
  change (String a stem +:+ rest) with (String a (stem +:+ rest)). exact IH.
Qed.

Lemma mem_append (c : ascii) (a b : string) :
  PyStr.mem c (a +:+ b) = PyStr.mem c a || PyStr.mem c b.
Proof.
  induction a as [|x a IH]; [reflexivity|].
  change (String x a +:+ b) with (String x (a +:+ b)).
  cbn [PyStr.mem]. by rewrite IH, orb_assoc.
Qed.

Lemma ascii_lower_dot (a : ascii) :
  Ascii.eqb PyPath.dot (PyStr.ascii_lower a) = Ascii.eqb PyPath.dot a.
Proof. destruct a as [[] [] [] [] [] [] [] []]; reflexivity. Qed.

Lemma lower_keeps_dotless (s : string) :
  PyStr.mem PyPath.dot s = false -> PyStr.mem PyPath.dot (PyStr.lower_ascii s) = false.
Proof.
  induction s as [|a s IH]; [reflexivity|].
  cbn [PyStr.mem PyStr.lower_ascii]. rewrite ascii_lower_dot.
  intros [-> Hs]%orb_false_iff. by rewrite (IH Hs).
Qed.

Lemma mem_dot_chars (a : ascii) : PyStr.mem a "." = Ascii.eqb PyPath.dot a.
Proof. cbn [PyStr.mem]. rewrite orb_false_r. apply Ascii.eqb_sym. Qed.

Lemma lstrip_dotless (s : string) :
  PyStr.mem PyPath.dot s = false -> PyStr.lstrip "." s = s.
Proof.
  destruct s as [|a s]; [reflexivity|].
  intros Hs. cbn [PyStr.mem] in Hs. apply orb_false_iff in Hs as [Ha _].
  cbn [PyStr.lstrip]. by rewrite mem_dot_chars, Ha.
Qed.

Lemma rstrip_dotless (s : string) :
  PyStr.mem PyPath.dot s = false -> PyStr.rstrip "." s = s.
Proof.
  induction s as [|a s IH]; [reflexivity|].
  intros Hs. cbn [PyStr.mem] in Hs. apply orb_false_iff in Hs as [Ha Hs].
  cbn [PyStr.rstrip]. rewrite (IH Hs), mem_dot_chars, Ha. by destruct s.
Qed.

(** Stripping dots from a dot followed by dotless text removes that dot. *)
Lemma strip_leading_dot (s : string) :
  PyStr.mem PyPath.dot s = false -> PyStr.strip "." (String PyPath.dot s) = s.
Proof.
  intros Hs. unfold PyStr.strip.
  change (PyStr.lstrip "." (String PyPath.dot s)) with (PyStr.lstrip "." s).
  by rewrite (lstrip_dotless _ Hs), (rstrip_dotless _ Hs).
Qed.

Lemma isascii_dot (s : string) :
  PyStr.isascii (String PyPath.dot s) = PyStr.isascii s.
Proof. reflexivity. Qed.

(** On a name whose suffix is ASCII text the interpreter's case folding
    is the ASCII one. *)
Lemma extension_of_ascii_suffix (file_name : string) :
  PyStr.isascii (PyPath.suffix file_name) = true ->
  extension file_name = PyStr.strip "." (PyStr.lower_ascii (PyPath.suffix file_name)).
Proof. intros Hascii. unfold extension. by rewrite (str_lower_ascii _ Hascii). Qed.

(** X11: for a bare file name [stem.ext], with a non-empty stem and a
    non-empty dotless [ext] of ASCII characters, the extension is [ext]
    with its letters A to Z in lower case: the text after the final dot,
    earlier dots in the stem notwithstanding. *)
Lemma extension_of_dotted_name (stem ext : string) :
  stem <> "" -> ext <> "" ->
  PyStr.mem PyPath.sep stem = false ->
  PyStr.mem PyPath.sep ext = false ->
  PyStr.mem PyPath.dot ext = false ->
  PyStr.isascii ext = true ->
  extension (stem +:+ "." +:+ ext) = PyStr.lower_ascii ext.
Proof.
  intros Hstem Hext Hsep_stem Hsep_ext Hdot Hascii.
  assert (PyPath.suffix (stem +:+ "." +:+ ext) = String PyPath.dot ext) as Hsuffix.
  { rewrite suffix_of_bare_name.
    2:{ rewrite mem_append, Hsep_stem.
        change ("." +:+ ext) with (String PyPath.dot ext).
        cbn [PyStr.mem]. by rewrite Hsep_ext. }
    unfold PyPath.suffix_of_name, PyStr.slice_from, PyStr.len.
    change ("." +:+ ext) with (String PyPath.dot ext).
    rewrite (rfind_last _ _ _ Hdot), length_append. unfold PyStr.len.
    cbn [String.length].
    assert (0 < String.length stem)%nat by (destruct stem; [done|cbn; lia]).
    assert (0 < String.length ext)%nat by (destruct ext; [done|cbn; lia]).
    replace (0 <? Z.of_nat (String.length stem)) with true
      by (symmetry; apply Z.ltb_lt; lia).
    replace (Z.of_nat (String.length stem) <?
             Z.of_nat (String.length stem + S (String.length ext)) - 1) with true
      by (symmetry; apply Z.ltb_lt; lia).
    cbn [andb]. by rewrite Nat2Z.id, drop_append. }
  rewrite extension_of_ascii_suffix; rewrite Hsuffix; [|by rewrite isascii_dot].
  change (PyStr.lower_ascii (String PyPath.dot ext))
    with (String PyPath.dot (PyStr.lower_ascii ext)).
  apply strip_leading_dot. by apply lower_keeps_dotless.
Qed.

(** [rfind] finds the last occurrence: what follows it has none. *)
Lemma rfind_spec (c : ascii) (s : string) :
  (PyStr.rfind c s = -1 /\ PyStr.mem c s = false) \/
  (0 <= PyStr.rfind c s /\
   exists rest,
     PyStr.drop (Z.to_nat (PyStr.rfind c s)) s = String c rest /\
     PyStr.mem c rest = false /\
     PyStr.len s = PyStr.rfind c s + 1 + PyStr.len rest).
Proof.
  induction s as [|a s IH]; [by left|].
  cbn [PyStr.rfind PyStr.mem].
  destruct IH as [[-> Hs]|(Hr & rest & Hdrop & Hrest & Hlen)].
  - cbn [Z.leb Z.compare]. rewrite (Ascii.eqb_sym c a), Hs, orb_false_r.
    destruct (Ascii.eqb_spec a c) as [->|Hac]; [right|by left].
    split; [done|]. exists s. repeat split; [done|].
    unfold PyStr.len. cbn [String.length]. lia.
  - right. apply Z.leb_le in Hr as Hr'. rewrite Hr'. split; [lia|].
    exists rest. replace (Z.to_nat (PyStr.rfind c s + 1)) with (S (Z.to_nat (PyStr.rfind c s)))
      by lia.
    cbn [PyStr.drop]. repeat split; [done..|].
    unfold PyStr.len in *. cbn [String.length]. lia.
Qed.

(** pathlib's suffix is empty, or a dot followed by non-empty dotless
    text; the extension is that suffix in lower case without the dots at
    its ends, which for ASCII text is the text after the dot with its
    letters A to Z in lower case. *)
Lemma extension_is_suffix_without_dot (file_name : string) :
  (PyPath.suffix file_name = "" /\ extension file_name = "") \/
  (exists ext,
     PyPath.suffix file_name = String PyPath.dot ext /\
     ext <> "" /\
     PyStr.mem PyPath.dot ext = false /\
     extension file_name = PyStr.strip "." (str_lower (String PyPath.dot ext)) /\
     (PyStr.isascii ext = true -> extension file_name = PyStr.lower_ascii ext)).
Proof.
  destruct (PyPath.suffix file_name) as [|a rest] eqn:Hsuffix.
  { left. split; [reflexivity|].
    rewrite extension_of_ascii_suffix; by rewrite Hsuffix. }
  right.
  assert (exists ext,
    String a rest = String PyPath.dot ext /\ ext <> "" /\ PyStr.mem PyPath.dot ext = false)
    as (ext & Hshape & Hnonempty & Hdot).
  { pose proof Hsuffix as Hcut.
    unfold PyPath.suffix, PyPath.suffix_of_name, PyStr.slice_from in Hcut.
    destruct (_ && _) eqn:Hcond; [|discriminate Hcut].
    apply andb_true_iff in Hcond as [Hpos%Z.ltb_lt Hlast%Z.ltb_lt].
    destruct (rfind_spec PyPath.dot (PyPath.name file_name))
      as [[Hnone _]|(_ & ext & Hdrop & Hext & Hlen)]; [lia|].
    exists ext. rewrite <- Hcut, Hdrop. split; [done|]. split; [|done].
    intros ->. unfold PyStr.len in Hlen at 2. cbn in Hlen. lia. }
  exists ext. rewrite Hshape. split; [reflexivity|]. split; [exact Hnonempty|].
  split; [exact Hdot|].
  split; [unfold extension; by rewrite Hsuffix, Hshape|].
  intros Hascii.
  rewrite extension_of_ascii_suffix; rewrite Hsuffix, Hshape; [|by rewrite isascii_dot].
  change (PyStr.lower_ascii (String PyPath.dot ext))
    with (String PyPath.dot (PyStr.lower_ascii ext)).
  apply strip_leading_dot. by apply lower_keeps_dotless.
Qed.

(** *** Downloading a file *)




(** *** Filtering the files of a thing *)

Lemma contains_spec (x : string) (xs : list string) :
  contains x xs = true <-> x ∈ xs.
Proof.
  induction xs as [|y ys IH]; cbn.
  - split; [discriminate|]. by intros ?%elem_of_nil.
  - rewrite elem_of_cons, orb_true_iff, IH, String.eqb_eq.
    split; (intros [Hx|Hx]; [left; congruence|by right]).
Qed.

(** The keys cached by [updateSupportedFileTypes] are the domain of the
    host's dictionary. *)
Lemma cached_keys_are_dom (supported : gmap string string) (x : string) :
  x ∈ (map_to_list supported).*1 <-> x ∈ dom supported.
Proof.
  rewrite elem_of_dom, list_elem_of_fmap. split.
  - intros [[k v] [-> Hkv%elem_of_map_to_list]]. by exists v.
  - intros [v Hv]. exists (x, v). split; [reflexivity|]. by apply elem_of_map_to_list.
Qed.

Lemma supported_file_types_after (c : Call) (w : World) :
  _supported_file_types (self (after c w)) =
    match c with
    | call_updateSupportedFileTypes supported => (map_to_list supported).*1
    | _ => _supported_file_types (self w)
    end.
Proof. step_cases c w; reflexivity. Qed.

Lemma supported_file_types_run (cs : list Call) (w : World) :
  forallb (fun c => negb (is_refresh c)) cs = true ->
  _supported_file_types (self (run cs w)) = _supported_file_types (self w).
Proof.
  revert w. induction cs as [|c cs IH]; intros w Hcs; [reflexivity|].
  cbn in Hcs. apply andb_true_iff in Hcs as [Hc Hcs].
  change (run (c :: cs) w) with (run cs (after c w)).
  rewrite (IH _ Hcs), supported_file_types_after.
  by destruct c.
Qed.

(** On files that all carry a string name, the comprehension returns,
    and what it keeps is a filter of its input. *)
Lemma supported_files_named (supported : list string) (thing_files : list JSONObject)
    (w : World) :
  Forall (fun f => exists file_name, getattr f "name" = Some (PyStr file_name)) thing_files ->
  supported_files supported thing_files w =
    (Returned (List.filter (has_supported_extension supported) thing_files), w).
Proof.
  induction 1 as [|f rest [file_name Hname] _ IH]; [reflexivity|].
  cbn [supported_files List.filter]. unfold mbind, M_bind, path_of_name, has_supported_extension.
  rewrite Hname. cbn. rewrite IH. reflexivity.
Qed.

(** C1: when the files callback delivers files (each carrying its name),
    it returns, and the stored list is the delivered list filtered, in
    order, by: the lowercase extension of the name (pathlib's suffix,
    lower-cased by the interpreter, without its dot) is in the cached
    list of supported file types.  That suffix is empty or the final dot
    of the name with the non-empty dotless text after it; when this text
    is ASCII the extension is the text itself with its letters A to Z in
    lower case.  So a file is in the list exactly when it was delivered
    and its extension is supported, and every entry that the
    [activeThingFiles] accessor returns has a supported extension.  The
    cached list is the key set of the dictionary that the host gave at
    the last refresh. *)
Theorem files_callback_keeps_supported_extensions
    (thing_files : list JSONObject) (w : World) :
  Forall (fun f => exists file_name, getattr f "name" = Some (PyStr file_name))
    thing_files ->
  exists w',
    _onThingFilesFinished thing_files w = (Returned tt, w') /\
    _thing_files (self w') =
      List.filter (has_supported_extension (_supported_file_types (self w))) thing_files /\
    activeThingFiles (self w') =
      map __dict__
        (List.filter (has_supported_extension (_supported_file_types (self w)))
           thing_files) /\
    (forall f : JSONObject,
       f ∈ _thing_files (self w') <->
       f ∈ thing_files /\
       exists file_name,
         getattr f "name" = Some (PyStr file_name) /\
         extension file_name ∈ _supported_file_types (self w)) /\
    (forall d : list (string * PyValue),
       d ∈ activeThingFiles (self w') ->
       exists file_name,
         dict_get d "name" = Some (PyStr file_name) /\
         extension file_name ∈ _supported_file_types (self w)) /\
    (forall (supported : gmap string string) (cs : list Call) (w0 : World),
       w = run cs (after (call_updateSupportedFileTypes supported) w0) ->
       forallb (fun c => negb (is_refresh c)) cs = true ->
       forall x : string, x ∈ _supported_file_types (self w) <-> x ∈ dom supported) /\
    (forall file_name : string,
       (PyPath.suffix file_name = "" /\ extension file_name = "") \/
       (exists ext,
          PyPath.suffix file_name = String PyPath.dot ext /\
          ext <> "" /\
          PyStr.mem PyPath.dot ext = false /\
          extension file_name = PyStr.strip "." (str_lower (String PyPath.dot ext)) /\
          (PyStr.isascii ext = true -> extension file_name = PyStr.lower_ascii ext))).
Proof.
  intros Hnamed.
  assert (forall f : JSONObject,
    f ∈ List.filter (has_supported_extension (_supported_file_types (self w))) thing_files <->
    f ∈ thing_files /\
    exists file_name,
      getattr f "name" = Some (PyStr file_name) /\
      extension file_name ∈ _supported_file_types (self w)) as Hkept.
  { intros f. rewrite !list_elem_of_In, filter_In, <- !list_elem_of_In.
    unfold has_supported_extension. split.
    - intros [Hin Hsup]. split; [exact Hin|].
      destruct (getattr f "name") as [[| | |file_name| | |]|]; try discriminate.
      exists file_name. split; [reflexivity|]. by apply contains_spec.
    - intros [Hin (file_name & -> & Hsup)]. split; [exact Hin|]. by apply contains_spec. }
  destruct (onThingFilesFinished_cases thing_files w) as [[e Hraise]|(kept & Hkeep & Hrun)].
  { exfalso. unfold _onThingFilesFinished, mbind, M_bind, get_self in Hraise.
    rewrite (supported_files_named _ _ _ Hnamed) in Hraise. discriminate Hraise. }
  rewrite (supported_files_named _ _ _ Hnamed) in Hkeep.
  injection Hkeep as <-.
  eexists. split; [exact Hrun|]. cbn [self].
  split; [reflexivity|]. split; [reflexivity|]. split; [exact Hkept|].
  split; [|split].
  - intros d (f & -> & Hf)%list_elem_of_fmap.
    apply Hkept in Hf as [_ Hf]. destruct f. exact Hf.
  - intros supported cs w0 -> Hcs x.
    rewrite (supported_file_types_run _ _ Hcs), supported_file_types_after.
    apply cached_keys_are_dom.
  - apply extension_is_suffix_without_dot.
Qed.

(** *** When the files callback raises *)

Lemma supported_files_stops_at (supported : list string)
    (before : list JSONObject) (f : JSONObject) (rest : list JSONObject)
    (e : PyExn) (w : World) :
  Forall named before ->
  path_of_name f w = (Raised e, w) ->
  supported_files supported (before ++ f :: rest) w = (Raised e, w).
Proof.
  intros Hbefore Hf. induction Hbefore as [|g before [file_name Hg] _ IH].
  - cbn [app supported_files]. unfold mbind, M_bind. by rewrite Hf.
  - cbn [app supported_files]. unfold mbind, M_bind, path_of_name at 1.
    rewrite Hg. cbn. by rewrite IH.
Qed.

(** X1: when the first delivered file that lacks a string name has no
    [name] attribute, the files callback raises [AttributeError]; when
    its [name] is not a string it raises [TypeError].  Either way the
    world is as before: the stored files are the old ones and nothing is
    emitted, whatever the other files are. *)
Theorem files_callback_raises_on_unnamed_file
    (before : list JSONObject) (f : JSONObject) (rest : list JSONObject) (w : World) :
  Forall named before ->
  (getattr f "name" = None ->
   _onThingFilesFinished (before ++ f :: rest) w = (Raised (AttributeError "name"), w)) /\
  (forall v : PyValue,
     getattr f "name" = Some v ->
     (forall s, v <> PyStr s) ->
     _onThingFilesFinished (before ++ f :: rest) w = (Raised TypeError, w)).
Proof.
  intros Hbefore. split.
  - intros Hnone. unfold _onThingFilesFinished, mbind, M_bind, get_self.
    rewrite (supported_files_stops_at _ before f rest (AttributeError "name") w Hbefore);
      [reflexivity|].
    unfold path_of_name. by rewrite Hnone.
  - intros v Hv Hnot. unfold _onThingFilesFinished, mbind, M_bind, get_self.
    rewrite (supported_files_stops_at _ before f rest TypeError w Hbefore);
      [reflexivity|].
    unfold path_of_name. rewrite Hv. destruct v; try reflexivity.
    by destruct (Hnot s).
Qed.

(** *** A service that was never refreshed *)

Lemma supported_files_of_none (thing_files : list JSONObject) (w : World) (o : Outcome (list JSONObject)) :
  supported_files [] thing_files w = (o, w) ->
  o = Returned [] \/ exists e, o = Raised e.
Proof.
  revert o. induction thing_files as [|f rest IH]; intros o; cbn [supported_files].
  - intros [= <-]. by left.
  - unfold mbind, M_bind.
    destruct (path_of_name_world f w) as [[p|e] ->]; [|intros [= <-]; eauto].
    destruct (supported_files_world [] rest w) as [[kept|e] Hrest]; rewrite Hrest.
    + destruct (IH _ Hrest) as [[= ->]|[e [=]]]. cbn. intros [= <-]. by left.
    + intros [= <-]. eauto.
Qed.

Lemma unrefreshed_after (c : Call) (w : World) :
  is_refresh c = false ->
  _supported_file_types (self w) = [] /\ _thing_files (self w) = [] ->
  _supported_file_types (self (after c w)) = [] /\ _thing_files (self (after c w)) = [].
Proof.
  intros Hc [Hsup Hfiles]. rewrite supported_file_types_after.
  split; [by destruct c|].
  destruct (is_files_callback c) eqn:Hcallback;
    [|by rewrite (thing_files_kept c w Hcallback)].
  destruct c; try discriminate Hcallback.
  unfold after. cbn [step].
  destruct (onThingFilesFinished_cases thing_files w) as [[e ->]|(kept & Hkept & ->)];
    [exact Hfiles|].
  cbn. rewrite Hsup in Hkept.
  by destruct (supported_files_of_none _ _ _ Hkept) as [[= ->]|[e [=]]].
Qed.

(** X2: as long as [updateSupportedFileTypes] has not been called, the
    service keeps no files: after any calls from construction that
    contain no refresh, whatever the files callbacks delivered, the
    stored list and [activeThingFiles] are empty. *)
Theorem no_files_before_first_refresh (cs : list Call) :
  forallb (fun c => negb (is_refresh c)) cs = true ->
  _thing_files (self (run cs fresh_world)) = [] /\
  activeThingFiles (self (run cs fresh_world)) = [].
Proof.
  intros Hcs.
  assert (forall w,
    _supported_file_types (self w) = [] /\ _thing_files (self w) = [] ->
    _supported_file_types (self (run cs w)) = [] /\ _thing_files (self (run cs w)) = [])
    as Hrun.
  { induction cs as [|c cs IH]; intros w Hw; [exact Hw|].
    cbn in Hcs. apply andb_true_iff in Hcs as [Hc%negb_true_iff Hcs].
    change (run (c :: cs) w) with (run cs (after c w)).
    apply (IH Hcs). by apply unrefreshed_after. }
  destruct (Hrun fresh_world) as [_ Hfiles]; [by split|].
  split; [exact Hfiles|]. unfold activeThingFiles. by rewrite Hfiles.
Qed.

(** *** The extension is in normal form *)

Lemma ascii_lower_sep (a : ascii) :
  Ascii.eqb PyPath.sep (PyStr.ascii_lower a) = Ascii.eqb PyPath.sep a.
Proof. destruct a as [[] [] [] [] [] [] [] []]; reflexivity. Qed.

Lemma ascii_lower_idem (a : ascii) :
  PyStr.ascii_lower (PyStr.ascii_lower a) = PyStr.ascii_lower a.
Proof. destruct a as [[] [] [] [] [] [] [] []]; reflexivity. Qed.

Lemma lower_idem (s : string) : PyStr.lower_ascii (PyStr.lower_ascii s) = PyStr.lower_ascii s.
Proof.
  induction s as [|a s IH]; [reflexivity|].
  cbn [PyStr.lower_ascii]. by rewrite ascii_lower_idem, IH.
Qed.

Lemma lower_mem_sep (s : string) :
  PyStr.mem PyPath.sep (PyStr.lower_ascii s) = PyStr.mem PyPath.sep s.
Proof.
  induction s as [|a s IH]; [reflexivity|].
  cbn [PyStr.mem PyStr.lower_ascii]. by rewrite ascii_lower_sep, IH.
Qed.

Lemma mem_drop (c : ascii) (n : nat) (s : string) :
  PyStr.mem c s = false -> PyStr.mem c (PyStr.drop n s) = false.
Proof.
  revert s. induction n as [|n IH]; intros s Hs; [exact Hs|].
  destruct s as [|a s]; [reflexivity|].
  cbn [PyStr.drop]. apply IH.
  cbn [PyStr.mem] in Hs. by apply orb_false_iff in Hs as [_ Hs].
Qed.

Lemma split_nonempty (c : ascii) (s : string) : PyStr.split c s <> [].
Proof.
  destruct s as [|a s]; [discriminate|].
  cbn [PyStr.split]. destruct (Ascii.eqb a c); [discriminate|].
  by destruct (PyStr.split c s).
Qed.

(** No piece of a split contains the separator. *)
Lemma split_pieces (c : ascii) (s : string) :
  Forall (fun piece => PyStr.mem c piece = false) (PyStr.split c s).
Proof.
  induction s as [|a s IH]; [by repeat constructor|].
  cbn [PyStr.split]. destruct (Ascii.eqb a c) eqn:Hac.
  - by constructor.
  - destruct (PyStr.split c s) as [|piece pieces].
    { constructor; [|constructor]. cbn [PyStr.mem]. by rewrite Ascii.eqb_sym, Hac. }
    inversion IH as [|? ? Hpiece Hpieces]; subst. constructor; [|exact Hpieces].
    cbn [PyStr.mem]. by rewrite Ascii.eqb_sym, Hac, Hpiece.
Qed.

Lemma last_Forall {A : Type} (P : A -> Prop) (l : list A) (d : A) :
  P d -> Forall P l -> P (List.last l d).
Proof.
  intros Hd Hl. induction Hl as [|x l Hx Hl IH]; [exact Hd|].
  destruct l; [exact Hx|exact IH].
Qed.

Lemma name_without_sep (path : string) :
  PyStr.mem PyPath.sep (PyPath.name path) = false.
Proof.
  unfold PyPath.name, PyPath.components.
  apply (last_Forall (fun piece => PyStr.mem PyPath.sep piece = false)); [reflexivity|].
  apply Forall_forall. intros piece Hin.
  apply list_elem_of_In, filter_In in Hin as [Hin _]. apply list_elem_of_In in Hin.
  by apply (proj1 (Forall_forall _ _) (split_pieces PyPath.sep path)).
Qed.

Lemma suffix_without_sep (path : string) :
  PyStr.mem PyPath.sep (PyPath.suffix path) = false.
Proof.
  unfold PyPath.suffix, PyPath.suffix_of_name, PyStr.slice_from.
  destruct (_ && _); [|reflexivity].
  apply mem_drop, name_without_sep.
Qed.

(** X3: for every file name whose suffix is ASCII text, the extension
    contains no dot and no ['/'] and none of the letters A to Z.  So an
    entry of the supported file types that has a dot, a ['/'] or one of
    the letters A to Z in it is matched by no such file. *)
Theorem extension_is_normalised (file_name : string) :
  PyStr.isascii (PyPath.suffix file_name) = true ->
  PyStr.mem PyPath.dot (extension file_name) = false /\
  PyStr.mem PyPath.sep (extension file_name) = false /\
  PyStr.lower_ascii (extension file_name) = extension file_name /\
  (forall key : string,
     PyStr.mem PyPath.dot key = true \/
     PyStr.mem PyPath.sep key = true \/
     PyStr.lower_ascii key <> key ->
     contains (extension file_name) [key] = false).
Proof.
  intros Hascii.
  assert (PyStr.mem PyPath.dot (extension file_name) = false /\
          PyStr.mem PyPath.sep (extension file_name) = false /\
          PyStr.lower_ascii (extension file_name) = extension file_name) as Hnormal.
  { destruct (extension_is_suffix_without_dot file_name)
      as [[_ ->]|(ext & Hsuffix & _ & Hdot & _ & Hext)]; [by repeat split|].
    rewrite Hsuffix, isascii_dot in Hascii. rewrite (Hext Hascii).
    split; [by apply lower_keeps_dotless|]. split; [|apply lower_idem].
    rewrite lower_mem_sep.
    pose proof (suffix_without_sep file_name) as Hsep. rewrite Hsuffix in Hsep.
    cbn [PyStr.mem] in Hsep. by apply orb_false_iff in Hsep as [_ Hsep]. }
  destruct Hnormal as (Hdot & Hsep & Hlower).
  repeat split; [exact Hdot|exact Hsep|exact Hlower|].
  intros key Hkey. cbn [contains]. rewrite orb_false_r.
  apply String.eqb_neq. intros ->.
  destruct Hkey as [Hkey|[Hkey|Hkey]]; congruence.
Qed.

(** *** The extension does not depend on the case of the name *)

Lemma split_lower (s : string) :
  PyStr.split PyPath.sep (PyStr.lower_ascii s) = map PyStr.lower_ascii (PyStr.split PyPath.sep s).
Proof.
  induction s as [|a s IH]; [reflexivity|].
  cbn [PyStr.lower_ascii PyStr.split].
  rewrite (Ascii.eqb_sym (PyStr.ascii_lower a)), ascii_lower_sep, (Ascii.eqb_sym PyPath.sep a).
  rewrite IH. destruct (Ascii.eqb a PyPath.sep); [reflexivity|].
  by destruct (PyStr.split PyPath.sep s).
Qed.

Lemma is_component_lower (x : string) :
  PyPath.is_component (PyStr.lower_ascii x) = PyPath.is_component x.
Proof.
  destruct x as [|a [|b y]]; [reflexivity| |].
  - unfold PyPath.is_component. cbn [PyStr.lower_ascii String.eqb].
    change "."%char with PyPath.dot.
    by rewrite (Ascii.eqb_sym (PyStr.ascii_lower a)), ascii_lower_dot,
      (Ascii.eqb_sym PyPath.dot a).
  - unfold PyPath.is_component. cbn [PyStr.lower_ascii String.eqb].
    by destruct (Ascii.eqb (PyStr.ascii_lower a) "."), (Ascii.eqb a ".").
Qed.

Lemma components_lower (path : string) :
  PyPath.components (PyStr.lower_ascii path) = map PyStr.lower_ascii (PyPath.components path).
Proof.
  unfold PyPath.components. rewrite split_lower.
  induction (PyStr.split PyPath.sep path) as [|x l IH]; [reflexivity|].
  cbn [map List.filter]. rewrite is_component_lower, IH.
  by destruct (PyPath.is_component x).
Qed.

Lemma name_lower (path : string) :
  PyPath.name (PyStr.lower_ascii path) = PyStr.lower_ascii (PyPath.name path).
Proof.
  unfold PyPath.name. rewrite components_lower.
  induction (PyPath.components path) as [|x l IH]; [reflexivity|].
  destruct l as [|y l]; [reflexivity|]. exact IH.
Qed.

Lemma rfind_lower (s : string) :
  PyStr.rfind PyPath.dot (PyStr.lower_ascii s) = PyStr.rfind PyPath.dot s.
Proof.
  induction s as [|a s IH]; [reflexivity|].
  cbn [PyStr.lower_ascii PyStr.rfind].
  by rewrite IH, (Ascii.eqb_sym (PyStr.ascii_lower a)), ascii_lower_dot,
    (Ascii.eqb_sym PyPath.dot a).
Qed.

Lemma length_lower (s : string) : String.length (PyStr.lower_ascii s) = String.length s.
Proof. induction s as [|a s IH]; [reflexivity|]. cbn. by rewrite IH. Qed.

Lemma drop_lower (n : nat) (s : string) :
  PyStr.drop n (PyStr.lower_ascii s) = PyStr.lower_ascii (PyStr.drop n s).
Proof.
  revert s. induction n as [|n IH]; intros s; [reflexivity|].
  destruct s as [|a s]; [reflexivity|]. apply IH.
Qed.

Lemma suffix_lower (path : string) :
  PyPath.suffix (PyStr.lower_ascii path) = PyStr.lower_ascii (PyPath.suffix path).
Proof.
  unfold PyPath.suffix, PyPath.suffix_of_name, PyStr.slice_from, PyStr.len.
  rewrite name_lower, rfind_lower, length_lower.
  destruct (_ && _); [apply drop_lower|reflexivity].
Qed.

Lemma isascii_char_lower (a : ascii) :
  (N_of_ascii (PyStr.ascii_lower a) <? 128)%N = (N_of_ascii a <? 128)%N.
Proof. destruct a as [[] [] [] [] [] [] [] []]; reflexivity. Qed.

Lemma isascii_lower_ascii (s : string) :
  PyStr.isascii (PyStr.lower_ascii s) = PyStr.isascii s.
Proof.
  induction s as [|a s IH]; [reflexivity|].
  cbn [PyStr.lower_ascii PyStr.isascii]. by rewrite isascii_char_lower, IH.
Qed.

Lemma isascii_drop (n : nat) (s : string) :
  PyStr.isascii s = true -> PyStr.isascii (PyStr.drop n s) = true.
Proof.
  revert s. induction n as [|n IH]; intros s Hs; [exact Hs|].
  destruct s as [|a s]; [reflexivity|].
  cbn [PyStr.drop]. apply IH.
  cbn [PyStr.isascii] in Hs. by apply andb_true_iff in Hs as [_ Hs].
Qed.

Lemma isascii_split (c : ascii) (s : string) :
  PyStr.isascii s = true ->
  Forall (fun piece => PyStr.isascii piece = true) (PyStr.split c s).
Proof.
  induction s as [|a s IH]; intros Hs; [by repeat constructor|].
  cbn [PyStr.isascii] in Hs. apply andb_true_iff in Hs as [Ha Hs].
  specialize (IH Hs). cbn [PyStr.split]. destruct (Ascii.eqb a c).
  - by constructor.
  - destruct (PyStr.split c s) as [|piece pieces].
    { constructor; [|constructor]. cbn [PyStr.isascii]. by rewrite Ha. }
    inversion IH as [|? ? Hpiece Hpieces]; subst. constructor; [|exact Hpieces].
    cbn [PyStr.isascii]. by rewrite Ha, Hpiece.
Qed.

Lemma isascii_suffix (path : string) :
  PyStr.isascii path = true -> PyStr.isascii (PyPath.suffix path) = true.
Proof.
  intros Hpath.
  assert (PyStr.isascii (PyPath.name path) = true) as Hname.
  { unfold PyPath.name, PyPath.components.
    apply (last_Forall (fun piece => PyStr.isascii piece = true)); [reflexivity|].
    apply Forall_forall. intros piece Hin.
    apply list_elem_of_In, filter_In in Hin as [Hin _]. apply list_elem_of_In in Hin.
    by apply (proj1 (Forall_forall _ _) (isascii_split PyPath.sep path Hpath)). }
  unfold PyPath.suffix, PyPath.suffix_of_name, PyStr.slice_from.
  destruct (_ && _); [|reflexivity]. by apply isascii_drop.
Qed.

(** X4: on ASCII file names the extension does not depend on the letter
    case: such a name and its lower-case form have the same extension,
    so two ASCII names that differ only in case are kept or dropped
    together. *)
Theorem extension_ignores_case (file_name other : string) :
  PyStr.isascii file_name = true ->
  PyStr.isascii other = true ->
  extension (str_lower file_name) = extension file_name /\
  (str_lower file_name = str_lower other ->
   forall supported : list string,
     contains (extension file_name) supported = contains (extension other) supported).
Proof.
  assert (forall n, PyStr.isascii n = true -> extension (str_lower n) = extension n)
    as Hlower.
  { intros n Hn. rewrite (str_lower_ascii _ Hn).
    rewrite !extension_of_ascii_suffix.
    - by rewrite suffix_lower, lower_idem.
    - by apply isascii_suffix.
    - apply isascii_suffix. by rewrite isascii_lower_ascii. }
  intros Hname Hother. split; [by apply Hlower|].
  intros Hsame supported. by rewrite <- (Hlower file_name Hname), Hsame, Hlower.
Qed.

(** *** Histories of calls *)

Lemma run_app (cs cs' : list Call) (w : World) :
  run (cs ++ cs') w = run cs' (run cs w).
Proof. unfold run. apply fold_left_app. Qed.

Lemma things_run_without_search (cs : list Call) (w : World) :
  forallb (fun c => negb (is_search c)) cs = true ->
  _things (self (run cs w)) = _things (self w) ++ deliveries cs.
Proof.
  revert w. induction cs as [|c cs IH]; intros w Hcs.
  - cbn. by rewrite app_nil_r.
  - cbn in Hcs. apply andb_true_iff in Hcs as [Hc Hcs].
    change (run (c :: cs) w) with (run cs (after c w)).
    rewrite (IH _ Hcs), things_after.
    destruct c; try discriminate Hc; cbn [deliveries]; try reflexivity.
    by rewrite app_assoc.
Qed.

(** X5: the results list is what the search callbacks delivered since
    the last [search], in order of arrival: after a [search] followed by
    calls that contain no further [search], the results are exactly the
    concatenation of the deliveries among those calls, whichever request
    they answer; without any [search] the deliveries are appended to the
    results held before. *)
Theorem results_are_deliveries_since_last_search
    (earlier later : list Call) (search_terms : string) (w : World) :
  forallb (fun c => negb (is_search c)) later = true ->
  _things (self (run (earlier ++ call_search search_terms :: later) w)) =
    deliveries later /\
  _things (self (run later w)) = _things (self w) ++ deliveries later.
Proof.
  intros Hlater. split; [|by apply things_run_without_search].
  rewrite run_app.
  change (run (call_search search_terms :: later) (run earlier w))
    with (run later (after (call_search search_terms) (run earlier w))).
  rewrite (things_run_without_search _ _ Hlater), things_after. reflexivity.
Qed.

Lemma search_requests_app (tr tr' : list Effect) :
  search_requests (tr ++ tr') = search_requests tr ++ search_requests tr'.
Proof.
  induction tr as [|e tr IH]; [reflexivity|].
  destruct e; cbn; by rewrite IH.
Qed.

Lemma paging_without_search (cs : list Call) (w : World) :
  forallb (fun c => negb (is_search c)) cs = true ->
  _search_terms (self (run cs w)) = _search_terms (self w) /\
  _search_page (self (run cs w)) =
    _search_page (self w) + Z.of_nat (count is_addSearchPage cs) /\
  search_requests (trace (run cs w)) =
    search_requests (trace w) ++
    consecutive_pages (_search_terms (self w)) (_search_page (self w) + 1)
      (count is_addSearchPage cs).
Proof.
  revert w. induction cs as [|c cs IH]; intros w Hcs.
  - cbn. split; [reflexivity|]. split; [lia|]. by rewrite app_nil_r.
  - cbn in Hcs. apply andb_true_iff in Hcs as [Hc Hcs].
    change (run (c :: cs) w) with (run cs (after c w)).
    destruct (IH (after c w) Hcs) as (-> & -> & ->). clear IH.
    revert Hc. step_cases c w; intros Hc; try discriminate Hc.
    all: rewrite ?search_requests_app; cbn [search_requests];
         rewrite ?app_nil_r; unfold count; cbn [List.filter is_addSearchPage].
    all: try (split; [reflexivity|]; split; reflexivity).
    cbn [_search_terms _search_page set_search_page length consecutive_pages].
    split; [reflexivity|]. split; [lia|]. by rewrite <- app_assoc.
Qed.

(** X6: within a search session the pages are requested in sequence.
    After [search] and any calls that contain no further [search], [n]
    of them being [addSearchPage], the page counter is [n + 1], the
    stored terms are those of the search, and the search requests
    issued since are those terms at pages 1, 2, ..., [n + 1], in this
    order and with none left out or repeated. *)
Theorem pages_are_requested_in_sequence
    (search_terms : string) (later : list Call) (w : World) :
  forallb (fun c => negb (is_search c)) later = true ->
  let w' := run (call_search search_terms :: later) w in
  _search_terms (self w') = search_terms /\
  _search_page (self w') = Z.of_nat (count is_addSearchPage later) + 1 /\
  search_requests (trace w') =
    search_requests (trace w) ++
    consecutive_pages search_terms 1 (S (count is_addSearchPage later)).
Proof.
  intros Hlater w'. subst w'.
  change (run (call_search search_terms :: later) w)
    with (run later (after (call_search search_terms) w)).
  destruct (paging_without_search later (after (call_search search_terms) w) Hlater)
    as (-> & -> & ->).
  unfold after. cbn [step]. rewrite search_runs. cbn [snd self trace].
  rewrite search_requests_app. cbn.
  split; [reflexivity|]. split; [lia|]. by rewrite <- app_assoc.
Qed.

(** *** Notifications *)

(** X7: no accessor changes silently.  Whatever the call, if what
    [things], [activeThing], [hasActiveThing], [activeThingFiles] or
    [isDownloading] returns differs after it, then the call has emitted
    the signal that the property is declared with. *)
Theorem accessor_changes_are_notified (c : Call) (w : World) :
  exists added,
    trace (after c w) = trace w ++ added /\
    (things (self (after c w)) <> things (self w) ->
     In (Emit thingsChanged) added) /\
    (activeThing (self (after c w)) <> activeThing (self w) ->
     In (Emit activeThingChanged) added) /\
    (hasActiveThing (self (after c w)) <> hasActiveThing (self w) ->
     In (Emit activeThingChanged) added) /\
    (activeThingFiles (self (after c w)) <> activeThingFiles (self w) ->
     In (Emit activeThingFilesChanged) added) /\
    (isDownloading (self (after c w)) <> isDownloading (self w) ->
     In (Emit downloadingStateChanged) added).
Proof.
  step_cases c w.
  all: first
    [ eexists; split; [reflexivity|]
    | exists []; split; [by rewrite app_nil_r|] ].
  all: repeat split; intros Hchanged;
       first [ by (cbn; tauto) | by destruct Hchanged ].
Qed.

(** *** Dialogs, temporary files and imports *)

Lemma count_app {A : Type} (p : A -> bool) (l l' : list A) :
  count p (l ++ l') = (count p l + count p l')%nat.
Proof. unfold count. by rewrite List.filter_app, length_app. Qed.

Lemma count_cons {A : Type} (p : A -> bool) (x : A) (l : list A) :
  count p (x :: l) = ((if p x then 1 else 0) + count p l)%nat.
Proof. unfold count. cbn [List.filter]. by destruct (p x). Qed.

Lemma dialogs_after (c : Call) (w : World) :
  count is_dialog (trace (after c w)) =
    (count is_dialog (trace w) + (if is_failure_callback c then 1 else 0))%nat.
Proof.
  step_cases c w; rewrite ?count_app; cbn; lia.
Qed.

Lemma dialogs_run (cs : list Call) (w : World) :
  count is_dialog (trace (run cs w)) =
    (count is_dialog (trace w) + count is_failure_callback cs)%nat.
Proof.
  revert w. induction cs as [|c cs IH]; intros w.
  - cbn. lia.
  - change (run (c :: cs) w) with (run cs (after c w)).
    rewrite IH, dialogs_after, count_cons. lia.
Qed.

(** X8: the error dialog is shown once for each failure callback and
    never otherwise: over any calls, the number of dialogs executed
    grows by the number of [_onRequestFailed] callbacks among them.  A
    service that received no failure callback has shown no dialog. *)
Theorem one_dialog_per_failure_callback (cs : list Call) (w : World) :
  count is_dialog (trace (run cs w)) =
    (count is_dialog (trace w) + count is_failure_callback cs)%nat /\
  (count is_failure_callback cs = 0%nat ->
   forall mb, ~ In (MessageBoxExec mb) (trace (run cs fresh_world))).
Proof.
  split; [apply dialogs_run|].
  intros Hnone mb Hin.
  pose proof (dialogs_run cs fresh_world) as Hdialogs.
  rewrite Hnone in Hdialogs. cbn in Hdialogs.
  unfold count in Hdialogs. apply length_zero_iff_nil in Hdialogs.
  assert (In (MessageBoxExec mb) (List.filter is_dialog (trace (run cs fresh_world))))
    as Hfiltered by (by apply filter_In).
  rewrite Hdialogs in Hfiltered. destruct Hfiltered.
Qed.

Lemma imports_after (c : Call) (w : World) :
  let completed :=
    if is_download_completion c && returned (step c w) then 1%nat else 0%nat in
  count is_import (trace (after c w)) = (count is_import (trace w) + completed)%nat /\
  (count is_file_write (trace w) + completed <= count is_file_write (trace (after c w)))%nat /\
  (count is_file_write (trace (after c w)) <=
   count is_file_write (trace w) + (if is_download_completion c then 1 else 0))%nat.
Proof.
  step_cases c w; rewrite ?count_app; cbn; lia.
Qed.

(** X9: the host is asked to read a file exactly once for each download
    completion that returns, and never otherwise, in particular not by a
    completion that raises.  Over any calls the number of
    [readLocalFile] requests grows by the number of completions that
    returned; the number of file writes grows by at least that and by at
    most the number of completion callbacks. *)
Theorem one_import_per_download_completion (cs : list Call) (w : World) :
  count is_import (trace (run cs w)) =
    (count is_import (trace w) + completed_downloads cs w)%nat /\
  (completed_downloads cs w <= count is_download_completion cs)%nat /\
  (count is_file_write (trace w) + completed_downloads cs w <=
   count is_file_write (trace (run cs w)))%nat /\
  (count is_file_write (trace (run cs w)) <=
   count is_file_write (trace w) + count is_download_completion cs)%nat.
Proof.
  revert w. induction cs as [|c cs IH]; intros w.
  - cbn. repeat split; lia.
  - change (run (c :: cs) w) with (run cs (after c w)).
    destruct (IH (after c w)) as (Himports & Hcompleted & Hlow & Hhigh).
    destruct (imports_after c w) as (Himports1 & Hlow1 & Hhigh1).
    cbn [completed_downloads]. rewrite count_cons.
    destruct (is_download_completion c); cbn [andb] in *;
      destruct (returned (step c w)); repeat split; lia.
Qed.

(** *** The two callbacks of [showThingDetails] *)

Lemma path_of_name_any_world (f : JSONObject) :
  exists o, forall w, path_of_name f w = (o, w).
Proof.
  unfold path_of_name. destruct (getattr f "name") as [[]|]; eexists; reflexivity.
Qed.

(** What the comprehension returns or raises does not depend on the
    world it runs in. *)
Lemma supported_files_any_world (supported : list string) (thing_files : list JSONObject) :
  exists o, forall w, supported_files supported thing_files w = (o, w).
Proof.
  induction thing_files as [|f rest [o IH]]; cbn [supported_files].
  - eexists; reflexivity.
  - destruct (path_of_name_any_world f) as [[p|e] Hf].
    + destruct o as [kept|e].
      * eexists. intros w. unfold mbind, M_bind. rewrite Hf, IH. reflexivity.
      * eexists. intros w. unfold mbind, M_bind. rewrite Hf, IH. reflexivity.
    + eexists. intros w. unfold mbind, M_bind. rewrite Hf. reflexivity.
Qed.

(** X10: the two callbacks that answer [showThingDetails] may arrive in
    either order: the details callback followed by the files callback
    leaves the service in the same state as the files callback followed
    by the details callback, also when the files callback raises. *)
Theorem details_and_files_callbacks_commute
    (thing : JSONObject) (thing_files : list JSONObject) (w : World) :
  self (run [back_onThingDetailsFinished thing; back_onThingFilesFinished thing_files] w) =
  self (run [back_onThingFilesFinished thing_files; back_onThingDetailsFinished thing] w).
Proof.
  change (run [back_onThingDetailsFinished thing; back_onThingFilesFinished thing_files] w)
    with (after (back_onThingFilesFinished thing_files)
            (after (back_onThingDetailsFinished thing) w)).
  change (run [back_onThingFilesFinished thing_files; back_onThingDetailsFinished thing] w)
    with (after (back_onThingDetailsFinished thing)
            (after (back_onThingFilesFinished thing_files) w)).
  assert (forall w', self (after (back_onThingDetailsFinished thing) w') =
                     set_thing_details (Some thing) (self w')) as Hdetails.
  { intros w'. unfold after. cbn [step]. by rewrite onThingDetailsFinished_runs. }
  rewrite (Hdetails (after (back_onThingFilesFinished thing_files) w)).
  unfold after at 1. cbn [step].
  unfold _onThingFilesFinished, mbind, M_bind, get_self.
  rewrite (Hdetails w).
  change (_supported_file_types (set_thing_details (Some thing) (self w)))
    with (_supported_file_types (self w)).
  unfold after. cbn [step].
  unfold _onThingFilesFinished, mbind, M_bind, get_self.
  destruct (supported_files_any_world (_supported_file_types (self w)) thing_files)
    as [[kept|e] Hany]; rewrite !Hany.
  - rewrite onThingDetailsFinished_runs. by destruct w.
  - cbn [snd]. rewrite onThingDetailsFinished_runs. reflexivity.
Qed.

(** *** Names without an extension, and names with directories *)

(** X12: a bare name whose only dot is its first character (a hidden
    file such as [.stl]) and a bare name that ends with a dot have the
    empty extension; such files are kept only if the empty string is
    among the supported file types. *)
Theorem extension_of_hidden_or_dot_ended_name (text : string) :
  PyStr.mem PyPath.sep text = false ->
  (PyStr.mem PyPath.dot text = false -> extension ("." +:+ text) = "") /\
  extension (text +:+ ".") = "" /\
  (PyStr.mem PyPath.dot text = false -> extension text = "").
Proof.
  intros Hsep.
  assert (forall nm, PyStr.mem PyPath.sep nm = false ->
                     PyPath.suffix_of_name nm = "" -> extension nm = "") as Hempty.
  { intros nm Hnm Hsuffix. unfold extension.
    rewrite (suffix_of_bare_name _ Hnm), Hsuffix.
    by rewrite (str_lower_ascii "" eq_refl). }
  split; [|split].
  - intros Hdot. apply Hempty.
    + change ("." +:+ text) with (String PyPath.dot text).
      cbn [PyStr.mem]. by rewrite Hsep.
    + unfold PyPath.suffix_of_name.
      change ("." +:+ text) with ("" +:+ String PyPath.dot text).
      by rewrite (rfind_last _ "" _ Hdot).
  - apply Hempty.
    + rewrite mem_append, Hsep. reflexivity.
    + unfold PyPath.suffix_of_name, PyStr.len.
      change (text +:+ ".") with (text +:+ String PyPath.dot "").
      rewrite (rfind_last PyPath.dot text "" eq_refl), length_append.
      unfold PyStr.len. cbn [String.length].
      replace (Z.of_nat (String.length text) <?
               Z.of_nat (String.length text + 1) - 1) with false
        by (symmetry; apply Z.ltb_ge; lia).
      by rewrite andb_false_r.
  - intros Hdot. apply Hempty; [exact Hsep|].
    unfold PyPath.suffix_of_name. by rewrite (rfind_absent _ _ Hdot).
Qed.

Lemma split_append_sep (c : ascii) (a b : string) :
  PyStr.split c (a +:+ String c b) = PyStr.split c a ++ PyStr.split c b.
Proof.
  induction a as [|x a IH].
  - change ("" +:+ String c b) with (String c b).
    cbn [PyStr.split app]. by rewrite Ascii.eqb_refl.
  - change (String x a +:+ String c b) with (String x (a +:+ String c b)).
    cbn [PyStr.split]. rewrite IH.
    destruct (Ascii.eqb x c); [reflexivity|].
    destruct (PyStr.split c a) as [|piece pieces] eqn:Hsplit; [|reflexivity].
    by destruct (split_nonempty c a).
Qed.

Lemma last_app_singleton {A : Type} (l : list A) (x d : A) :
  List.last (l ++ [x]) d = x.
Proof. induction l as [|y l IH]; [reflexivity|]. cbn. rewrite IH. by destruct l. Qed.

(** X13: only the final component of the name counts.  When a name
    without ['/'] (other than the empty one and ["."]) is prefixed with
    any directory part, dots of the directories included, the extension
    is that of the name alone. *)
Theorem extension_ignores_directories (directory file_name : string) :
  PyStr.mem PyPath.sep file_name = false ->
  file_name <> "" -> file_name <> "." ->
  extension (directory +:+ "/" +:+ file_name) = extension file_name.
Proof.
  intros Hsep Hnonempty Hnotdot.
  assert (PyPath.is_component file_name = true) as Hcomponent.
  { unfold PyPath.is_component.
    apply andb_true_iff; split; apply negb_true_iff, String.eqb_neq; done. }
  unfold extension. f_equal. f_equal.
  rewrite (suffix_of_bare_name _ Hsep).
  unfold PyPath.suffix. f_equal. unfold PyPath.name, PyPath.components.
  change ("/" +:+ file_name) with (String PyPath.sep file_name).
  rewrite split_append_sep, (split_without_sep _ Hsep), List.filter_app.
  cbn [List.filter]. rewrite Hcomponent. apply last_app_singleton.
Qed.

(** *** Paging without a search *)

(** X14: [addSearchPage] does not need a search before it.  In a service
    on which [search] was never called, [n] calls of [addSearchPage]
    have requested the empty terms at pages 2, 3, ..., [n + 1]: page 1
    is never requested and the terms are empty. *)
Theorem paging_before_any_search (cs : list Call) :
  forallb (fun c => negb (is_search c)) cs = true ->
  search_requests (trace (run cs fresh_world)) =
    consecutive_pages "" 2 (count is_addSearchPage cs) /\
  _search_page (self (run cs fresh_world)) = Z.of_nat (count is_addSearchPage cs) + 1.
Proof.
  intros Hcs.
  destruct (paging_without_search cs fresh_world Hcs) as (_ & -> & ->).
  split; [reflexivity|]. cbn. lia.
Qed.

Lemma pages_positive_after (c : Call) (w : World) :
  pages_positive w -> pages_positive (after c w).
Proof.
  intros [Hpage Hrequests]. unfold pages_positive.
  step_cases c w; rewrite ?search_requests_app; cbn [search_requests].
  all: rewrite ?app_nil_r.
  all: split; [cbn; lia|].
  all: first [ exact Hrequests
             | apply Forall_app; split; [exact Hrequests|];
               constructor; [cbn; lia|constructor] ].
Qed.

(** X15: the page counter never goes below 1 and no search request ever
    carries a page below 1, whatever is called on a service from its
    construction on. *)
Theorem pages_are_never_below_one (cs : list Call) :
  1 <= _search_page (self (run cs fresh_world)) /\
  (forall terms page on_finished on_failed,
     In (ApiSearch terms on_finished on_failed page) (trace (run cs fresh_world)) ->
     1 <= page).
Proof.
  assert (pages_positive (run cs fresh_world)) as [Hpage Hrequests].
  { assert (forall w, pages_positive w -> pages_positive (run cs w)) as Hrun.
    { induction cs as [|c cs IH]; intros w Hw; [exact Hw|].
      change (run (c :: cs) w) with (run cs (after c w)).
      apply IH. by apply pages_positive_after. }
    apply Hrun. split; [cbn; lia|constructor]. }
  split; [exact Hpage|].
  intros terms page on_finished on_failed Hin.
  assert (forall tr, In (ApiSearch terms on_finished on_failed page) tr ->
                     In (terms, page) (search_requests tr)) as Hlisted.
  { induction tr as [|e tr IH]; [done|].
    intros [->|Hin']; [by left|].
    destruct e; cbn [search_requests]; try (by apply IH). right. by apply IH. }
  apply Hlisted in Hin.
  apply (proj1 (Forall_forall _ _) Hrequests (terms, page)).
  by apply list_elem_of_In.
Qed.

(** *** The active thing *)

Lemma thing_details_after (c : Call) (w : World) :
  _thing_details (self (after c w)) =
    match c with
    | call_search _ | call_hideThingDetails => None
    | back_onThingDetailsFinished thing => Some thing
    | _ => _thing_details (self w)
    end.
Proof. step_cases c w; reflexivity. Qed.

(** X16: once the details callback has delivered a thing, it stays the
    active thing until [hideThingDetails], [search] or another details
    callback: over any other calls (paging, downloads, their
    completions, files callbacks, failures, refreshes)
    [hasActiveThing] stays true and [activeThing] stays that thing. *)
Theorem active_thing_stays_until_hidden
    (thing : JSONObject) (later : list Call) (w : World) :
  forallb (fun c => negb (sets_active_thing c)) later = true ->
  hasActiveThing (self (run (back_onThingDetailsFinished thing :: later) w)) = true /\
  activeThing (self (run (back_onThingDetailsFinished thing :: later) w)) =
    Some (__dict__ thing).
Proof.
  intros Hlater.
  assert (_thing_details (self (run (back_onThingDetailsFinished thing :: later) w)) =
          Some thing) as Hdetails.
  { change (run (back_onThingDetailsFinished thing :: later) w)
      with (run later (after (back_onThingDetailsFinished thing) w)).
    assert (_thing_details (self (after (back_onThingDetailsFinished thing) w)) =
            Some thing) as Hstart by apply thing_details_after.
    revert Hstart. generalize (after (back_onThingDetailsFinished thing) w).
    induction later as [|c later IH]; intros w' Hw'; [exact Hw'|].
    cbn in Hlater. apply andb_true_iff in Hlater as [Hc Hlater].
    change (run (c :: later) w') with (run later (after c w')).
    apply (IH Hlater). rewrite thing_details_after.
    by destruct c. }
  unfold hasActiveThing, activeThing. by rewrite Hdetails.
Qed.

End Properties.

(** * The model on concrete inputs

    From here on the runtime is the sample one. *)

#[local] Existing Instance sample_runtime.

Example failure_dialog_with_error :
  trace (@after sample_runtime (back_onRequestFailed (Some not_found)) fresh_world) =
    [MessageBoxExec
       {| icon := Critical; windowTitle := "Oh no!";
          text := "Thingiverse returned an error: Not Found.";
          detailedText := "{'error': 'Not Found'}" |}].
Proof. reflexivity. Qed.

Example failure_dialog_without_error :
  trace (@after sample_runtime (back_onRequestFailed None) fresh_world) =
    [MessageBoxExec
       {| icon := Critical; windowTitle := "Oh no!";
          text := "Thingiverse returned an error: Unknown.";
          detailedText := "" |}].
Proof. reflexivity. Qed.

Example download_session :
  trace (@run sample_runtime
           [call_downloadThingFile 4013 "Benchy.STL";
            back_onDownloadFinished [Byte.x73; Byte.x6f] "Benchy.STL"]
           fresh_world) =
    [Emit downloadingStateChanged;
     ApiDownloadThingFile 4013 (lambda_onDownloadFinished "Benchy.STL");
     TempFileCreate "/tmp/tmprnd0Benchy.STL";
     FileWrite "/tmp/tmprnd0Benchy.STL" [Byte.x73; Byte.x6f];
     FileClose "/tmp/tmprnd0Benchy.STL";
     ReadLocalFile (QUrl_fromLocalFile "/tmp/tmprnd0Benchy.STL");
     Emit downloadingStateChanged].
Proof. vm_compute. reflexivity. Qed.

(** A files callback on a file without a name raises and leaves the
    previous list in place. *)
Example files_callback_raises :
  _onThingFilesFinished [benchy_stl; JSONObject_of [("id", PyInt 7)]] fresh_world =
    (Raised (AttributeError "name"), fresh_world).
Proof. reflexivity. Qed.

(** ** Instances of the theorems *)

(** The files callback after a refresh from the host: of the two files
    delivered, the one with a supported extension is kept. *)
Lemma files_callback_keeps_supported_extensions_witness :
  Forall (fun f => exists file_name, getattr f "name" = Some (PyStr file_name))
    [benchy_stl; readme_txt] /\
  exists w',
    _onThingFilesFinished [benchy_stl; readme_txt]
      (@after sample_runtime (call_updateSupportedFileTypes host_file_types) fresh_world) =
      (Returned tt, w') /\
    _thing_files (self w') = [benchy_stl] /\
    (forall x : string,
       x ∈ _supported_file_types
             (self (@after sample_runtime
                      (call_updateSupportedFileTypes host_file_types) fresh_world)) <->
       x ∈ dom host_file_types).
Proof.
  assert (Forall (fun f => exists file_name, getattr f "name" = Some (PyStr file_name))
            [benchy_stl; readme_txt]) as Hnamed.
  { repeat constructor; eexists; reflexivity. }
  split; [exact Hnamed|].
  destruct (@files_callback_keeps_supported_extensions sample_runtime
              [benchy_stl; readme_txt]
              (@after sample_runtime (call_updateSupportedFileTypes host_file_types)
                 fresh_world)
              Hnamed)
    as (w' & Hrun & Hfiles & _ & _ & _ & Hcached & _).
  exists w'. split; [exact Hrun|]. split.
  - rewrite Hfiles. vm_compute. reflexivity.
  - apply (Hcached host_file_types [] fresh_world); reflexivity.
Defined.

(** A further page after a first search for ["benchy"]. *)
Lemma addSearchPage_requests_next_page_witness :
  last_search_request (trace (@run sample_runtime [call_search "benchy"] fresh_world)) =
    Some ("benchy", 1) /\
  exists w1,
    addSearchPage (@run sample_runtime [call_search "benchy"] fresh_world) =
      (Returned tt, w1) /\
    last_search_request (trace w1) = Some ("benchy", 2).
Proof.
  split; [reflexivity|].
  destruct (@addSearchPage_requests_next_page sample_runtime
              (@run sample_runtime [call_search "benchy"] fresh_world))
    as [(w1 & Hrun & _ & _ & _ & _ & Hnext) _].
  exists w1. split; [exact Hrun|].
  apply (Hnext [call_search "benchy"] "benchy" 1); reflexivity.
Defined.


(** The search callback on a non-empty result keeps what was there. *)
Lemma results_grow_or_clear_witness :
  _things (self (@after sample_runtime (back_onSearchFinished [benchy_thing]) fresh_world))
    <> [] /\
  exists new,
    _things (self (@after sample_runtime (back_onSearchFinished [benchy_thing])
                     fresh_world)) =
    _things (self fresh_world) ++ new.
Proof.
  assert (_things (self (@after sample_runtime (back_onSearchFinished [benchy_thing])
                           fresh_world)) <> []) as Hne.
  { cbn. discriminate. }
  split; [exact Hne|].
  apply (proj1 (proj2 (@results_grow_or_clear sample_runtime
                         (back_onSearchFinished [benchy_thing]) fresh_world))).
  exact Hne.
Defined.

(** The files list changes under the files callback. *)
Lemma hideThingDetails_keeps_files_witness :
  _thing_files
    (self (@after sample_runtime (back_onThingFilesFinished [benchy_stl])
             (@after sample_runtime (call_updateSupportedFileTypes host_file_types)
                fresh_world))) <>
  _thing_files
    (self (@after sample_runtime (call_updateSupportedFileTypes host_file_types)
             fresh_world)) /\
  exists thing_files,
    back_onThingFilesFinished [benchy_stl] = back_onThingFilesFinished thing_files.
Proof.
  assert (_thing_files
    (self (@after sample_runtime (back_onThingFilesFinished [benchy_stl])
             (@after sample_runtime (call_updateSupportedFileTypes host_file_types)
                fresh_world))) <>
  _thing_files
    (self (@after sample_runtime (call_updateSupportedFileTypes host_file_types)
             fresh_world))) as Hchanged.
  { vm_compute. discriminate. }
  split; [exact Hchanged|].
  apply (proj1 (proj2 (@hideThingDetails_keeps_files sample_runtime
                         (@after sample_runtime
                            (call_updateSupportedFileTypes host_file_types) fresh_world)))
           (back_onThingFilesFinished [benchy_stl])).
  exact Hchanged.
Defined.

(** One download, then its completion. *)
Lemma downloading_flag_until_a_completion_witness :
  exists w1,
    downloadThingFile 4013 "Benchy.STL" fresh_world = (Returned tt, w1) /\
    isDownloading (self w1) = true /\
    isDownloading
      (self (@run sample_runtime [back_onDownloadFinished [Byte.x73] "Benchy.STL"] w1)) =
      false /\
    (exists file_bytes completed,
       In (back_onDownloadFinished file_bytes completed)
          [back_onDownloadFinished [Byte.x73] "Benchy.STL"]) /\
    exists w2,
      @_onDownloadFinished sample_runtime [Byte.x73] "Benchy.STL" w1 = (Returned tt, w2) /\
      isDownloading (self w2) = false.
Proof.
  destruct (@downloading_flag_until_a_completion sample_runtime 4013 "Benchy.STL"
              fresh_world)
    as [(w1 & Hrun & Hon & Honly) Hcleared].
  exists w1. split; [exact Hrun|]. split; [exact Hon|].
  assert (isDownloading
            (self (@run sample_runtime
                     [back_onDownloadFinished [Byte.x73] "Benchy.STL"] w1)) = false)
    as Hoff.
  { injection Hrun as <-. vm_compute. reflexivity. }
  split; [exact Hoff|]. split; [apply Honly; exact Hoff|].
  assert (exists w2,
    @_onDownloadFinished sample_runtime [Byte.x73] "Benchy.STL" w1 = (Returned tt, w2))
    as [w2 Hcompletion].
  { injection Hrun as <-. eexists. vm_compute. reflexivity. }
  exists w2. split; [exact Hcompletion|].
  exact (Hcleared [Byte.x73] "Benchy.STL" w1 w2 Hcompletion).
Defined.

(** ** Where the flag is not per download

    Two downloads overlap; the completion of the first clears the flag
    while the second has not completed. *)
Example overlapping_downloads :
  let w :=
    @run sample_runtime
      [call_downloadThingFile 1 "a.stl";
       call_downloadThingFile 2 "b.stl";
       back_onDownloadFinished [Byte.x73] "a.stl"]
      fresh_world in
  isDownloading (self w) = false /\
  trace w =
    [Emit downloadingStateChanged;
     ApiDownloadThingFile 1 (lambda_onDownloadFinished "a.stl");
     Emit downloadingStateChanged;
     ApiDownloadThingFile 2 (lambda_onDownloadFinished "b.stl");
     TempFileCreate "/tmp/tmprnd0a.stl";
     FileWrite "/tmp/tmprnd0a.stl" [Byte.x73];
     FileClose "/tmp/tmprnd0a.stl";
     ReadLocalFile (QUrl_fromLocalFile "/tmp/tmprnd0a.stl");
     Emit downloadingStateChanged].
Proof. vm_compute. split; reflexivity. Qed.

(** The per-download reading of the flag fails on these calls: after
    them the flag is false, and no completion of ["b.stl"] has run since
    its download was started. *)
Lemma flag_cleared_by_another_download :
  ~ @flag_true_until_own_completion sample_runtime.
Proof.
  intros [_ Honly].
  specialize (Honly [call_downloadThingFile 1 "a.stl"]
                [back_onDownloadFinished [Byte.x73] "a.stl"] 2 "b.stl").
  vm_compute in Honly. specialize (Honly eq_refl). discriminate Honly.
Qed.

(** ** Instances of the further theorems *)

(** A delivery whose second file has no name. *)
Lemma files_callback_raises_on_unnamed_file_witness :
  Forall named [benchy_stl] /\
  getattr (JSONObject_of [("id", PyInt 7)]) "name" = None /\
  _onThingFilesFinished
    ([benchy_stl] ++ JSONObject_of [("id", PyInt 7)] :: [readme_txt]) fresh_world =
    (Raised (AttributeError "name"), fresh_world).
Proof.
  assert (Forall named [benchy_stl]) as Hnamed.
  { repeat constructor. eexists; reflexivity. }
  split; [exact Hnamed|]. split; [reflexivity|].
  apply (proj1 (files_callback_raises_on_unnamed_file
                  [benchy_stl] (JSONObject_of [("id", PyInt 7)]) [readme_txt]
                  fresh_world Hnamed)).
  reflexivity.
Defined.

(** A service that was shown a thing and got its files, but was never
    refreshed. *)
Lemma no_files_before_first_refresh_witness :
  forallb (fun c => negb (is_refresh c))
    [call_showThingDetails 763622; back_onThingFilesFinished [benchy_stl; readme_txt]] =
    true /\
  activeThingFiles
    (self (@run sample_runtime
             [call_showThingDetails 763622;
              back_onThingFilesFinished [benchy_stl; readme_txt]]
             fresh_world)) = [].
Proof.
  split; [reflexivity|].
  apply (@no_files_before_first_refresh sample_runtime
           [call_showThingDetails 763622;
            back_onThingFilesFinished [benchy_stl; readme_txt]]).
  reflexivity.
Defined.

(** The key ["STL"] is matched by no ASCII file name, not even
    ["Benchy.STL"]. *)
Lemma extension_is_normalised_witness :
  PyStr.isascii (PyPath.suffix "Benchy.STL") = true /\
  PyStr.lower_ascii "STL" <> "STL" /\
  contains (@extension sample_runtime "Benchy.STL") ["STL"] = false.
Proof.
  assert (PyStr.lower_ascii "STL" <> "STL") as Hupper by discriminate.
  split; [reflexivity|]. split; [exact Hupper|].
  apply (proj2 (proj2 (proj2 (@extension_is_normalised sample_runtime "Benchy.STL"
                                eq_refl)))).
  right. right. exact Hupper.
Defined.

Lemma extension_ignores_case_witness :
  PyStr.isascii "Benchy.STL" = true /\
  PyStr.isascii "BENCHY.stl" = true /\
  @str_lower sample_runtime "Benchy.STL" = @str_lower sample_runtime "BENCHY.stl" /\
  contains (@extension sample_runtime "Benchy.STL") ["stl"; "obj"] =
  contains (@extension sample_runtime "BENCHY.stl") ["stl"; "obj"].
Proof.
  split; [reflexivity|]. split; [reflexivity|]. split; [reflexivity|].
  apply (proj2 (@extension_ignores_case sample_runtime "Benchy.STL" "BENCHY.stl"
                  eq_refl eq_refl)).
  reflexivity.
Defined.

(** Two deliveries after a search, the second one after a further page. *)
Lemma results_are_deliveries_since_last_search_witness :
  forallb (fun c => negb (is_search c))
    [back_onSearchFinished [benchy_thing]; call_addSearchPage;
     back_onSearchFinished [benchy_thing]] = true /\
  _things
    (self (@run sample_runtime
             ([back_onSearchFinished [benchy_thing]] ++
              call_search "benchy" ::
              [back_onSearchFinished [benchy_thing]; call_addSearchPage;
               back_onSearchFinished [benchy_thing]])
             fresh_world)) = [benchy_thing; benchy_thing].
Proof.
  split; [reflexivity|].
  apply (@results_are_deliveries_since_last_search sample_runtime
           [back_onSearchFinished [benchy_thing]]
           [back_onSearchFinished [benchy_thing]; call_addSearchPage;
            back_onSearchFinished [benchy_thing]]
           "benchy" fresh_world).
  reflexivity.
Defined.

Lemma pages_are_requested_in_sequence_witness :
  forallb (fun c => negb (is_search c))
    [call_addSearchPage; back_onSearchFinished [benchy_thing]; call_addSearchPage] =
    true /\
  search_requests
    (trace (@run sample_runtime
              (call_search "benchy" ::
               [call_addSearchPage; back_onSearchFinished [benchy_thing];
                call_addSearchPage])
              fresh_world)) =
    [("benchy", 1); ("benchy", 2); ("benchy", 3)].
Proof.
  split; [reflexivity|].
  apply (@pages_are_requested_in_sequence sample_runtime "benchy"
           [call_addSearchPage; back_onSearchFinished [benchy_thing]; call_addSearchPage]
           fresh_world).
  reflexivity.
Defined.

(** The details callback changes [hasActiveThing], and says so. *)
Lemma accessor_changes_are_notified_witness :
  hasActiveThing
    (self (@after sample_runtime (back_onThingDetailsFinished benchy_thing) fresh_world))
    <> hasActiveThing (self fresh_world) /\
  exists added,
    trace (@after sample_runtime (back_onThingDetailsFinished benchy_thing) fresh_world) =
      trace fresh_world ++ added /\
    In (Emit activeThingChanged) added.
Proof.
  assert (hasActiveThing
            (self (@after sample_runtime (back_onThingDetailsFinished benchy_thing)
                     fresh_world))
          <> hasActiveThing (self fresh_world)) as Hchanged by discriminate.
  split; [exact Hchanged|].
  destruct (@accessor_changes_are_notified sample_runtime
              (back_onThingDetailsFinished benchy_thing) fresh_world)
    as (added & Htrace & _ & _ & Hnotified & _).
  exists added. split; [exact Htrace|]. apply Hnotified. exact Hchanged.
Defined.

(** A search, its results and a download: no failure, no dialog. *)
Lemma one_dialog_per_failure_callback_witness :
  count is_failure_callback
    [call_search "benchy"; back_onSearchFinished [benchy_thing];
     call_downloadThingFile 4013 "Benchy.STL"] = 0%nat /\
  forall mb,
    ~ In (MessageBoxExec mb)
        (trace (@run sample_runtime
                  [call_search "benchy"; back_onSearchFinished [benchy_thing];
                   call_downloadThingFile 4013 "Benchy.STL"]
                  fresh_world)).
Proof.
  split; [reflexivity|].
  apply (proj2 (@one_dialog_per_failure_callback sample_runtime
                  [call_search "benchy"; back_onSearchFinished [benchy_thing];
                   call_downloadThingFile 4013 "Benchy.STL"]
                  fresh_world)).
  reflexivity.
Defined.

Lemma extension_of_dotted_name_witness :
  "part.v2" <> "" /\ "Obj" <> "" /\
  PyStr.mem PyPath.sep "part.v2" = false /\
  PyStr.mem PyPath.sep "Obj" = false /\
  PyStr.mem PyPath.dot "Obj" = false /\
  PyStr.isascii "Obj" = true /\
  @extension sample_runtime ("part.v2" +:+ "." +:+ "Obj") = "obj".
Proof.
  repeat (split; [first [discriminate | reflexivity]|]).
  apply (@extension_of_dotted_name sample_runtime "part.v2" "Obj");
    first [discriminate | reflexivity].
Defined.

Lemma extension_of_hidden_or_dot_ended_name_witness :
  PyStr.mem PyPath.sep "stl" = false /\
  PyStr.mem PyPath.dot "stl" = false /\
  extension ("." +:+ "stl") = "" /\
  extension ("stl" +:+ ".") = "".
Proof.
  split; [reflexivity|]. split; [reflexivity|].
  destruct (extension_of_hidden_or_dot_ended_name "stl" eq_refl) as (Hhidden & Hended & _).
  split; [apply Hhidden; reflexivity|exact Hended].
Defined.

Lemma extension_ignores_directories_witness :
  PyStr.mem PyPath.sep "Benchy.STL" = false /\
  "Benchy.STL" <> "" /\ "Benchy.STL" <> "." /\
  extension ("files.v1/models" +:+ "/" +:+ "Benchy.STL") = extension "Benchy.STL".
Proof.
  split; [reflexivity|]. split; [discriminate|]. split; [discriminate|].
  apply (extension_ignores_directories "files.v1/models" "Benchy.STL");
    first [reflexivity | discriminate].
Defined.

(** Two further pages on a fresh service. *)
Lemma paging_before_any_search_witness :
  forallb (fun c => negb (is_search c)) [call_addSearchPage; call_addSearchPage] = true /\
  search_requests
    (trace (@run sample_runtime [call_addSearchPage; call_addSearchPage] fresh_world)) =
    [("", 2); ("", 3)].
Proof.
  split; [reflexivity|].
  apply (@paging_before_any_search sample_runtime [call_addSearchPage; call_addSearchPage]).
  reflexivity.
Defined.

Lemma pages_are_never_below_one_witness :
  In (ApiSearch "benchy" bound_onSearchFinished bound_onRequestFailed 2)
     (trace (@run sample_runtime [call_search "benchy"; call_addSearchPage] fresh_world)) /\
  1 <= 2.
Proof.
  assert (In (ApiSearch "benchy" bound_onSearchFinished bound_onRequestFailed 2)
            (trace (@run sample_runtime [call_search "benchy"; call_addSearchPage]
                      fresh_world))) as Hin.
  { do 3 right. left. reflexivity. }
  split; [exact Hin|].
  exact (proj2 (@pages_are_never_below_one sample_runtime
                  [call_search "benchy"; call_addSearchPage])
           "benchy" 2 bound_onSearchFinished bound_onRequestFailed Hin).
Defined.

(** The thing stays active while a file is downloaded and a request
    fails. *)
Lemma active_thing_stays_until_hidden_witness :
  forallb (fun c => negb (sets_active_thing c))
    [call_downloadThingFile 4013 "Benchy.STL"; back_onRequestFailed None;
     back_onDownloadFinished [Byte.x73] "Benchy.STL"] = true /\
  activeThing
    (self (@run sample_runtime
             (back_onThingDetailsFinished benchy_thing ::
              [call_downloadThingFile 4013 "Benchy.STL"; back_onRequestFailed None;
               back_onDownloadFinished [Byte.x73] "Benchy.STL"])
             fresh_world)) = Some (__dict__ benchy_thing).
Proof.
  split; [reflexivity|].
  apply (@active_thing_stays_until_hidden sample_runtime benchy_thing
           [call_downloadThingFile 4013 "Benchy.STL"; back_onRequestFailed None;
            back_onDownloadFinished [Byte.x73] "Benchy.STL"]
           fresh_world).
  reflexivity.
Defined.

(** ** Where the completion raises

    A file name with a ['/'] in it: the temporary file would lie below a
    directory that does not exist, the creation fails, and the
    completion raises before anything is written. *)
Example completion_of_refused_name :
  @step sample_runtime (back_onDownloadFinished [Byte.x73] "models/part.stl")
    (@after sample_runtime (call_downloadThingFile 4013 "models/part.stl") fresh_world) =
    (Raised FileNotFoundError,
     {| self := set_is_downloading true __init__;
        trace :=
          [Emit downloadingStateChanged;
           ApiDownloadThingFile 4013 (lambda_onDownloadFinished "models/part.stl")];
        tmp_count := 1 |}).
Proof. vm_compute. reflexivity. Qed.

